(** * spotify-auth-redirect-callback: the token exchange gateway of [index.js]

    A shallow embedding of the Express application of [index.js] and the
    properties of its five routes, its configuration guard and its 404
    handler.

    Conventions of the embedding:
    - a JavaScript string is its sequence of UTF-8 bytes ([string]);
    - a value that came out of [JSON.parse] or out of the query-string parser
      is a [json]; JavaScript's [undefined] is [None : option json];
    - a JavaScript object is a finite map from property names to values;
    - an expression that can throw is a [result];
    - the handlers are written in continuation style: a handler responds at
      once, or awaits the single outbound call to the provider and responds
      from its outcome, or throws outside its [try] block;
    - the random source and the clock are inputs ([Env]), the environment
      variables are a [Config];
    - what the packages [express], [cors] and [body-parser] decide (which
      requests the two library middlewares answer themselves, which requests
      a route takes) is a parameter of [app]. *)

From Stdlib Require Import ZArith NArith Strings.Byte Ascii String List Lia.
From stdpp Require Import base option list strings gmap fin_maps pretty.

Set Warnings "-register-all".
Local Open Scope string_scope.
Local Open Scope Z_scope.

(** ** JavaScript values *)

(** Numbers are the integers among JSON's numbers: the program never computes
    with a number, it tests it for truthiness, prints it or copies it. *)
Inductive json :=
| JNull
| JBool (b : bool)
| JNum (z : Z)
| JStr (s : string)
| JArr (items : list json)
| JObj (props : gmap string json).

(** [if (v)], [!v], [v || w], [v && w]: the values [undefined], [null],
    [false], [0] and the empty string are falsy, every array and object is truthy. *)
Definition truthy (v : json) : bool :=
  match v with
  | JNull => false
  | JBool b => b
  | JNum z => negb (z =? 0)
  | JStr s => negb (String.eqb s "")
  | JArr _ => true
  | JObj _ => true
  end.

Definition truthy_opt (v : option json) : bool :=
  match v with
  | Some x => truthy x
  | None => false
  end.

(** [a || b], for a [b] that is not [undefined]. *)
Definition or_else (a : option json) (b : json) : json :=
  match a with
  | Some x => if truthy x then x else b
  | None => b
  end.

(** [Array.prototype.join]-style concatenation with a separator. *)
Fixpoint join (sep : string) (parts : list string) : string :=
  match parts with
  | [] => ""
  | [p] => p
  | p :: rest => p ++ sep ++ join sep rest
  end.

(** ** Exceptions *)

Inductive result (A : Type) :=
| Ok (a : A)
| Throw (message : string).
Arguments Ok {A} a.
Arguments Throw {A} message.

#[global] Instance result_ret : MRet result := fun A a => Ok a.

#[global] Instance result_bind : MBind result := fun A B k r =>
  match r with
  | Ok a => k a
  | Throw m => Throw m
  end.

(** [String(v)], as a template literal and [URLSearchParams] apply it. An
    integer prints in decimal notation. An array prints its items separated by
    commas, [null] items as nothing. An object prints as [[object Object]],
    unless it has a property named [toString] of its own: that value is no
    function, so the conversion throws a [TypeError] (the message is V8's). *)
Fixpoint to_string (v : json) : result string :=
  match v with
  | JNull => Ok "null"
  | JBool true => Ok "true"
  | JBool false => Ok "false"
  | JNum z => Ok (pretty z)
  | JStr s => Ok s
  | JArr items =>
      let fix texts (items : list json) : result (list string) :=
        match items with
        | [] => Ok []
        | item :: rest =>
            t ← match item with
                | JNull => Ok ""
                | _ => to_string item
                end;
            ts ← texts rest;
            Ok (t :: ts)
        end in
      ts ← texts items;
      Ok (join "," ts)
  | JObj props =>
      match props !! "toString" with
      | Some _ => Throw "Cannot convert object to primitive value"
      | None => Ok "[object Object]"
      end
  end.

Definition to_string_opt (v : option json) : result string :=
  match v with
  | Some x => to_string x
  | None => Ok "undefined"
  end.

(** [data.name] for one of the property names this program reads, none of which
    is an index, [length] or a method of a built-in prototype: an object
    answers with its own property, [null] throws a [TypeError] (the message is
    V8's), every other value answers [undefined]. *)
Definition get_prop (data : json) (name : string) : result (option json) :=
  match data with
  | JObj props => Ok (props !! name)
  | JNull => Throw ("Cannot read properties of null (reading '" ++ name ++ "')")
  | _ => Ok None
  end.

(** An object literal [{k1: v1, ..., kn: vn}] with distinct keys, as
    [JSON.stringify] sends it: a property whose value is [undefined] is left out. *)
Fixpoint object_literal (fields : list (string * option json)) : gmap string json :=
  match fields with
  | [] => ∅
  | (k, Some v) :: rest => <[k := v]> (object_literal rest)
  | (_, None) :: rest => object_literal rest
  end.

(** ** Hexadecimal, as [Buffer.prototype.toString('hex')] *)

Module Hex.

Definition digit (n : N) : ascii :=
  match n with
  | 0%N => "0" | 1%N => "1" | 2%N => "2" | 3%N => "3" | 4%N => "4"
  | 5%N => "5" | 6%N => "6" | 7%N => "7" | 8%N => "8" | 9%N => "9"
  | 10%N => "a" | 11%N => "b" | 12%N => "c" | 13%N => "d" | 14%N => "e"
  | _ => "f"
  end%char.

Definition value (c : ascii) : option N :=
  let n := N_of_ascii c in
  if ((48 <=? n) && (n <=? 57))%N then Some (n - 48)%N
  else if ((97 <=? n) && (n <=? 102))%N then Some (n - 87)%N
  else if ((65 <=? n) && (n <=? 70))%N then Some (n - 55)%N
  else None.

Fixpoint encode (bytes : list byte) : string :=
  match bytes with
  | [] => ""
  | b :: rest =>
      let n := Byte.to_N b in
      String (digit (n / 16)) (String (digit (n mod 16)) (encode rest))
  end.

Fixpoint decode (s : string) : option (list byte) :=
  match s with
  | "" => Some []
  | String hi (String lo rest) =>
      match value hi, value lo, decode rest with
      | Some h, Some l, Some bytes =>
          match Byte.of_N (16 * h + l) with
          | Some b => Some (b :: bytes)
          | None => None
          end
      | _, _, _ => None
      end
  | _ => None
  end.

End Hex.

(** ** [application/x-www-form-urlencoded], as [URLSearchParams] *)

Module FormUrlencoded.

(** Bytes the serializer leaves as they are: ASCII letters and digits and
    [*], [-], [.], [_]. *)
Definition unreserved (c : ascii) : bool :=
  let n := N_of_ascii c in
  ((48 <=? n) && (n <=? 57) || (65 <=? n) && (n <=? 90)
   || (97 <=? n) && (n <=? 122)
   || (n =? 42) || (n =? 45) || (n =? 46) || (n =? 95))%N.

Definition upper_digit (n : N) : ascii :=
  match n with
  | 0%N => "0" | 1%N => "1" | 2%N => "2" | 3%N => "3" | 4%N => "4"
  | 5%N => "5" | 6%N => "6" | 7%N => "7" | 8%N => "8" | 9%N => "9"
  | 10%N => "A" | 11%N => "B" | 12%N => "C" | 13%N => "D" | 14%N => "E"
  | _ => "F"
  end%char.

Definition encode_byte (c : ascii) : string :=
  if unreserved c then String c ""
  else if Ascii.eqb c " " then "+"
  else let n := N_of_ascii c in
       String "%" (String (upper_digit (n / 16)) (String (upper_digit (n mod 16)) "")).

Fixpoint encode (s : string) : string :=
  match s with
  | "" => ""
  | String c rest => encode_byte c ++ encode rest
  end.

(** The parser's decoding: [+] is a space, [%XY] with two hexadecimal
    digits is the byte they denote, anything else stands for itself. *)
Fixpoint decode (s : string) : string :=
  match s with
  | "" => ""
  | String c rest =>
      if Ascii.eqb c "+" then String " " (decode rest)
      else if Ascii.eqb c "%" then
        match rest with
        | String hi (String lo rest') =>
            match Hex.value hi, Hex.value lo with
            | Some h, Some l => String (ascii_of_N (16 * h + l)) (decode rest')
            | _, _ => String c (decode rest)
            end
        | _ => String c (decode rest)
        end
      else String c (decode rest)
  end.

(** [new URLSearchParams({k1: v1, ...})] is the list of its name-value
    pairs, in order. *)
Definition URLSearchParams := list (string * string).

Definition encode_pair (p : string * string) : string :=
  encode p.1 ++ "=" ++ encode p.2.

(** [params.toString()] *)
Definition serialize (params : URLSearchParams) : string :=
  join "&" (map encode_pair params).

(** The pieces of [s] between the occurrences of [sep]. *)
Fixpoint split_on (sep : ascii) (s : string) : list string :=
  match s with
  | "" => [""]
  | String c rest =>
      if Ascii.eqb c sep then "" :: split_on sep rest
      else match split_on sep rest with
           | piece :: pieces => String c piece :: pieces
           | [] => [String c ""]
           end
  end.

(** [sep] does not occur in [s]. *)
Fixpoint free_of (sep : ascii) (s : string) : bool :=
  match s with
  | "" => true
  | String c rest => negb (Ascii.eqb c sep) && free_of sep rest
  end.

(** [s] cut at the first occurrence of [sep]. *)
Fixpoint cut_at (sep : ascii) (s : string) : string * string :=
  match s with
  | "" => ("", "")
  | String c rest =>
      if Ascii.eqb c sep then ("", rest)
      else let '(name, value) := cut_at sep rest in (String c name, value)
  end.

Definition parse_pair (piece : string) : string * string :=
  let '(name, value) := cut_at "=" piece in (decode name, decode value).

(** The parser behind [new URL(location).searchParams]: empty pieces are
    skipped, each other piece is cut at its first [=]. *)
Definition parse (query : string) : URLSearchParams :=
  map parse_pair (filter (fun piece => piece ≠ "") (split_on "&" query)).

(** [params.get(name)]: the value of the first pair with that name. *)
Fixpoint get (name : string) (params : URLSearchParams) : option string :=
  match params with
  | [] => None
  | (k, v) :: rest => if String.eqb k name then Some v else get name rest
  end.

End FormUrlencoded.

(** ** Base64, as [Buffer.prototype.toString('base64')] *)

Module Base64.

Definition digit (n : N) : ascii :=
  (if n <? 26 then ascii_of_N (65 + n)
   else if n <? 52 then ascii_of_N (97 + (n - 26))
   else if n <? 62 then ascii_of_N (48 + (n - 52))
   else if n =? 62 then "+"%char else "/"%char)%N.

Fixpoint encode (s : string) : string :=
  match s with
  | "" => ""
  | String a "" =>
      let x := N_of_ascii a in
      String (digit (x / 4)) (String (digit (x mod 4 * 16)) "==")
  | String a (String b "") =>
      let x := N_of_ascii a in
      let y := N_of_ascii b in
      String (digit (x / 4))
        (String (digit (x mod 4 * 16 + y / 16))
           (String (digit (y mod 16 * 4)) "="))
  | String a (String b (String c rest)) =>
      let x := N_of_ascii a in
      let y := N_of_ascii b in
      let z := N_of_ascii c in
      String (digit (x / 4))
        (String (digit (x mod 4 * 16 + y / 16))
           (String (digit (y mod 16 * 4 + z / 64))
              (String (digit (z mod 64)) (encode rest))))
  end%N.

End Base64.

(** ** Configuration, requests and responses *)

(** The three values read from [process.env] when the module is loaded; a
    variable that is not set reads as [undefined]. *)
Record Config := {
  CLIENT_ID : option string;
  CLIENT_SECRET : option string;
  REDIRECT_URI : option string;
}.

(** [!v] is false, for a value of [process.env]: set and not empty. *)
Definition env_truthy (v : option string) : bool :=
  match v with
  | Some s => negb (String.eqb s "")
  | None => false
  end.

(** An environment value inside a template literal or as a value of
    [URLSearchParams]. *)
Definition env_string (v : option string) : string :=
  match v with
  | Some s => s
  | None => "undefined"
  end.

Definition SCOPES : string :=
  join " " [
    "user-read-private";
    "user-read-email";
    "playlist-read-private";
    "playlist-modify-public";
    "playlist-modify-private";
    "user-library-read";
    "user-top-read";
    "user-read-playback-state";
    "user-modify-playback-state"
  ].

(** The part of [req] that the program reads. [query] is [req.query], the
    object the query-string parser built: its values are strings, arrays or
    nested objects. *)
Record Request := {
  method : string;
  path : string;
  query : gmap string json;
}.

Inductive Response :=
| Json (status : Z) (body : json)
| Redirect (status : Z) (location : string).

Definition status_of (r : Response) : Z :=
  match r with
  | Json status _ => status
  | Redirect status _ => status
  end.

(** The property [name] of a JSON response body. *)
Definition field (r : Response) (name : string) : option json :=
  match r with
  | Json _ (JObj props) => props !! name
  | _ => None
  end.

(** [res.status(status).json({...})]; [res.json({...})] is status 200. *)
Definition res_json (status : Z) (fields : list (string * option json)) : Response :=
  Json status (JObj (object_literal fields)).

(** [res.redirect(url)] *)
Definition res_redirect (url : string) : Response := Redirect 302 url.

(** What a request takes from outside the process: the bytes of the random
    source and the clock's reading in ISO format. *)
Record Env := {
  entropy : nat -> byte;
  now : string;
}.

(** [crypto.randomBytes(length)] *)
Definition randomBytes (env : Env) (length : nat) : list byte :=
  map (entropy env) (seq 0 length).

(** [generateState(length)]; [login] calls it with the default length, 16. *)
Definition generateState (env : Env) (length : nat) : string :=
  Hex.encode (randomBytes env length).

(** ** The outbound call *)

Record TokenRequest := {
  url : string;
  http_method : string;
  headers : list (string * string);
  payload : string;
}.

(** The request that [requestSpotifyTokens(body)] hands to [fetch]. *)
Definition requestSpotifyTokens (cfg : Config) (body : FormUrlencoded.URLSearchParams)
  : TokenRequest :=
  let credentials :=
    Base64.encode (env_string (CLIENT_ID cfg) ++ ":" ++ env_string (CLIENT_SECRET cfg)) in
  {| url := "https://accounts.spotify.com/api/token";
     http_method := "POST";
     headers := [("Content-Type", "application/x-www-form-urlencoded");
                 ("Authorization", "Basic " ++ credentials)];
     payload := FormUrlencoded.serialize body |}.

(** What awaiting [requestSpotifyTokens] gives: the parsed body of the
    provider's answer, or the exception of a failed [fetch] or of a body that
    is not JSON, with its [message]. *)
Definition Outcome := result json.

(** A handler responds, or awaits one call and responds from its outcome, or
    throws outside a [try] block: then its promise is rejected and the
    handler sends no answer. *)
Inductive Action :=
| Respond (r : Response)
| Await (call : TokenRequest) (k : Outcome -> Response)
| Unhandled (message : string).

(** The answer the handler sends once the provider has answered with [o]. *)
Definition finish (a : Action) (o : Outcome) : option Response :=
  match a with
  | Respond r => Some r
  | Await _ k => Some (k o)
  | Unhandled _ => None
  end.

(** The outbound calls an action makes. *)
Definition calls (a : Action) : list TokenRequest :=
  match a with
  | Respond _ => []
  | Await call _ => [call]
  | Unhandled _ => []
  end.

(** [try { ... } catch (err) { handler(err.message) }] *)
Definition try_catch (body : result Response) (handler : string -> Response) : Response :=
  match body with
  | Ok r => r
  | Throw message => handler message
  end.

(** ** Middleware and handlers *)

(** A layer of the application answers the request, or calls [next()]. *)
Definition Layer := Request -> option Action.

(** The middleware that requires the environment variables. *)
Definition require_env (cfg : Config) : Layer := fun req =>
  if bool_decide (path req ∈ ["/health"; "/"]) then None
  else if negb (env_truthy (CLIENT_ID cfg))
          || negb (env_truthy (CLIENT_SECRET cfg))
          || negb (env_truthy (REDIRECT_URI cfg))
  then Some (Respond (res_json 500 [
    ("error", Some (JStr "server_misconfigured"));
    ("message", Some (JStr "SPOTIFY_CLIENT_ID, SPOTIFY_CLIENT_SECRET, and SPOTIFY_REDIRECT_URI must be set in environment variables."))
  ]))
  else None.

(** [GET /] *)
Definition home (req : Request) : Action :=
  Respond (res_json 200 [
    ("name", Some (JStr "spotify-auth-redirect-callback"));
    ("endpoints", Some (JObj (object_literal [
      ("GET /health", Some (JStr "Health check"));
      ("GET /login", Some (JStr "Redirect to Spotify authorization page"));
      ("GET /callback", Some (JStr "Spotify OAuth2 callback (handles success & failure)"));
      ("GET /refresh_token", Some (JStr "Refresh an access token (query: refresh_token)"))
    ])))
  ]).

(** [GET /health] *)
Definition health (env : Env) (req : Request) : Action :=
  Respond (res_json 200 [
    ("status", Some (JStr "ok"));
    ("timestamp", Some (JStr (now env)))
  ]).

(** The parameters of the authorization URL that [GET /login] builds. *)
Definition login_params (cfg : Config) (env : Env) : FormUrlencoded.URLSearchParams :=
  let state := generateState env 16 in
  [ ("response_type", "code");
    ("client_id", env_string (CLIENT_ID cfg));
    ("scope", SCOPES);
    ("redirect_uri", env_string (REDIRECT_URI cfg));
    ("state", state) ].

(** [GET /login] *)
Definition login (cfg : Config) (env : Env) (req : Request) : Action :=
  let params := login_params cfg env in
  Respond (res_redirect
    ("https://accounts.spotify.com/authorize?" ++ FormUrlencoded.serialize params)).

(** The [try] block of [GET /callback] from the provider's answer on. *)
Definition callback_relay (data : json) : result Response :=
  error ← get_prop data "error";
  if truthy_opt error then
    error_description ← get_prop data "error_description";
    mret (res_json 400 [
      ("success", Some (JBool false));
      ("error", error);
      ("message", Some (or_else error_description (JStr "Token exchange failed.")))
    ])
  else
    access_token ← get_prop data "access_token";
    token_type ← get_prop data "token_type";
    scope ← get_prop data "scope";
    expires_in ← get_prop data "expires_in";
    refresh_token ← get_prop data "refresh_token";
    mret (res_json 200 [
      ("success", Some (JBool true));
      ("access_token", access_token);
      ("token_type", token_type);
      ("scope", scope);
      ("expires_in", expires_in);
      ("refresh_token", refresh_token)
    ]).

(** [GET /callback] *)
Definition callback (cfg : Config) (req : Request) : Action :=
  let code := query req !! "code" in
  let error := query req !! "error" in
  let state := query req !! "state" in
  if truthy_opt error then
    match to_string_opt error with
    | Ok text =>
        Respond (res_json 400 [
          ("success", Some (JBool false));
          ("error", error);
          ("message", Some (JStr ("Spotify authorization failed: " ++ text)));
          ("state", Some (or_else state JNull))
        ])
    | Throw message => Unhandled message
    end
  else if negb (truthy_opt code) then
    Respond (res_json 400 [
      ("success", Some (JBool false));
      ("error", Some (JStr "missing_code"));
      ("message", Some (JStr "No authorization code was returned by Spotify."))
    ])
  else
    let catch := fun message => res_json 500 [
      ("success", Some (JBool false));
      ("error", Some (JStr "token_exchange_error"));
      ("message", Some (JStr message))
    ] in
    match to_string_opt code with
    | Ok code_text =>
        let body := [
          ("grant_type", "authorization_code");
          ("code", code_text);
          ("redirect_uri", env_string (REDIRECT_URI cfg))
        ] in
        Await (requestSpotifyTokens cfg body) (fun outcome =>
          try_catch (data ← outcome; callback_relay data) catch)
    | Throw message => Respond (catch message)
    end.

(** The double quote character, as a string. *)
Definition dquote : string := String (ascii_of_N 34) "".

(** The [try] block of [GET /refresh_token] from the provider's answer on.
    The spread [...(data.refresh_token && {refresh_token: data.refresh_token})]
    adds the property when the provider's value is truthy and nothing otherwise. *)
Definition refresh_relay (data : json) : result Response :=
  error ← get_prop data "error";
  if truthy_opt error then
    error_description ← get_prop data "error_description";
    mret (res_json 400 [
      ("success", Some (JBool false));
      ("error", error);
      ("message", Some (or_else error_description (JStr "Token refresh failed.")))
    ])
  else
    access_token ← get_prop data "access_token";
    token_type ← get_prop data "token_type";
    scope ← get_prop data "scope";
    expires_in ← get_prop data "expires_in";
    refresh_token ← get_prop data "refresh_token";
    mret (res_json 200 [
      ("success", Some (JBool true));
      ("access_token", access_token);
      ("token_type", token_type);
      ("scope", scope);
      ("expires_in", expires_in);
      ("refresh_token", if truthy_opt refresh_token then refresh_token else None)
    ]).

(** [GET /refresh_token] *)
Definition refresh_token (cfg : Config) (req : Request) : Action :=
  let refresh_token := query req !! "refresh_token" in
  if negb (truthy_opt refresh_token) then
    Respond (res_json 400 [
      ("success", Some (JBool false));
      ("error", Some (JStr "missing_refresh_token"));
      ("message", Some (JStr ("Query parameter " ++ dquote ++ "refresh_token" ++ dquote ++ " is required.")))
    ])
  else
    let catch := fun message => res_json 500 [
      ("success", Some (JBool false));
      ("error", Some (JStr "refresh_token_error"));
      ("message", Some (JStr message))
    ] in
    match to_string_opt refresh_token with
    | Ok token_text =>
        let body := [
          ("grant_type", "refresh_token");
          ("refresh_token", token_text)
        ] in
        Await (requestSpotifyTokens cfg body) (fun outcome =>
          try_catch (data ← outcome; refresh_relay data) catch)
    | Throw message => Respond (catch message)
    end.

(** The 404 handler. *)
Definition not_found (req : Request) : Action :=
  Respond (res_json 404 [
    ("error", Some (JStr "not_found"));
    ("message", Some (JStr ("Route " ++ method req ++ " " ++ path req ++ " not found.")))
  ]).

(** ** The application *)

(** The layers run in the order of their registration; the first one that
    answers ends the request, and [final] answers what comes through. *)
Fixpoint dispatch (layers : list Layer) (final : Request -> Action) (req : Request)
  : Action :=
  match layers with
  | [] => final req
  | layer :: rest =>
      match layer req with
      | Some a => a
      | None => dispatch rest final req
      end
  end.

Section Express.

(** What Express and its middleware packages decide, which is no code of
    this repository: [cors()] and [express.json()], each of which answers a
    request itself or passes it on, and the router's test whether a route
    registered by [app.get(pattern, ...)] takes a request. *)
Variable cors_mw json_mw : Layer.
Variable get_matches : string -> Request -> bool.

(** [app.get(pattern, handler)] *)
Definition app_get (pattern : string) (handler : Request -> Action) : Layer :=
  fun req => if get_matches pattern req then Some (handler req) else None.

Definition routes (cfg : Config) (env : Env) : list Layer := [
  app_get "/" home;
  app_get "/health" (health env);
  app_get "/login" (login cfg env);
  app_get "/callback" (callback cfg);
  app_get "/refresh_token" (refresh_token cfg)
].

Definition app (cfg : Config) (env : Env) : Request -> Action :=
  dispatch ([cors_mw; json_mw; require_env cfg] ++ routes cfg env) not_found.

(** Both library middlewares call [next()] on the request. *)
Definition passed_on (req : Request) : Prop :=
  cors_mw req = None ∧ json_mw req = None.

(** No route of the application takes the request. *)
Definition unrouted (req : Request) : Prop :=
  ∀ pattern, pattern ∈ ["/"; "/health"; "/login"; "/callback"; "/refresh_token"] →
             get_matches pattern req = false.

End Express.

(** ** Reading a redirect, as [new URL(location)] does *)

Module Url.

Record t := {
  host : string;
  pathname : string;
  search : string;
}.

Fixpoint strip_prefix (prefix s : string) : option string :=
  match prefix, s with
  | "", _ => Some s
  | String p prefix', String c s' =>
      if Ascii.eqb p c then strip_prefix prefix' s' else None
  | _, _ => None
  end.

(** An absolute [https] URL with neither credentials, port nor fragment:
    the host runs to the first [/], the path from there to the first [?],
    the search parameters follow. *)
Definition parse (s : string) : option t :=
  match strip_prefix "https://" s with
  | Some rest =>
      let '(h, after) := FormUrlencoded.cut_at "/" rest in
      let '(p, q) := FormUrlencoded.cut_at "?" after in
      Some {| host := h; pathname := String "/" p; search := q |}
  | None => None
  end.

End Url.

(** [new URL(location).searchParams.get(name)] for the [Location] of a
    redirect. *)
Definition location_param (name : string) (a : Action) : option string :=
  match a with
  | Respond (Redirect _ location) =>
      match Url.parse location with
      | Some u => FormUrlencoded.get name (FormUrlencoded.parse (Url.search u))
      | None => None
      end
  | _ => None
  end.

(** ** Instances used to run the application on concrete requests *)

(** A library middleware that calls [next()] on every request. *)
Definition next_always : Layer := fun _ => None.

(** The least the router does: a route takes a [GET] request for exactly
    its path. *)
Definition exact_get (pattern : string) (req : Request) : bool :=
  String.eqb (method req) "GET" && String.eqb (path req) pattern.

Definition unset : Config :=
  {| CLIENT_ID := None; CLIENT_SECRET := None; REDIRECT_URI := None |}.

(** The configuration of the repository's tests. *)
Definition test_config : Config :=
  {| CLIENT_ID := Some "test_client_id";
     CLIENT_SECRET := Some "test_client_secret";
     REDIRECT_URI := Some "http://localhost:3000/callback" |}.

Definition zeros : Env := {| entropy := fun _ => x00%byte; now := "2024-01-01T00:00:00.000Z" |}.
Definition ones : Env := {| entropy := fun _ => x01%byte; now := "2024-01-01T00:00:00.000Z" |}.

Definition GET (p : string) (q : list (string * option json)) : Request :=
  {| method := "GET"; path := p; query := object_literal q |}.

(** ** Vocabulary of the properties *)

(** Awaiting the provider's answer or reading a property of it throws: the
    call was rejected, or the answer is [null]. *)
Definition raises (o : Outcome) : bool :=
  match o with
  | Throw _ => true
  | Ok JNull => true
  | Ok _ => false
  end.

(** A JSON answer with the properties [error] and [message]. *)
Definition error_shaped (r : Response) : Prop :=
  ∃ status props e m,
    r = Json status (JObj props) ∧ props !! "error" = Some e ∧ props !! "message" = Some m.

(** A JSON answer with [success: false] and the properties [error] and
    [message]. *)
Definition failure_shaped (r : Response) : Prop :=
  field r "success" = Some (JBool false) ∧ error_shaped r.

(** [p] holds of every character of [s]. *)
Fixpoint every_char (p : ascii -> bool) (s : string) : bool :=
  match s with
  | "" => true
  | String c rest => p c && every_char p rest
  end.

(** A digit or one of the letters [a] to [f]. *)
Definition lower_hex (c : ascii) : bool :=
  let n := N_of_ascii c in
  ((48 <=? n) && (n <=? 57) || (97 <=? n) && (n <=? 102))%N.

(** An environment variable that is set and not empty. *)
Definition provided (v : option string) : Prop :=
  ∃ s, v = Some s ∧ s ≠ "".

(** A query value as repeated or single plain parameters give it: a string,
    or an array of strings. *)
Definition plain_value (v : json) : bool :=
  match v with
  | JStr _ => true
  | JArr items =>
      forallb (fun item => match item with JStr _ => true | _ => false end) items
  | _ => false
  end.

(** A query all of whose values are plain. *)
Definition plain_query (q : gmap string json) : Prop :=
  ∀ name v, q !! name = Some v → plain_value v = true.

(** An object that carries a property named [toString] of its own. *)
Definition shadows_toString (v : json) : Prop :=
  ∃ props, v = JObj props ∧ is_Some (props !! "toString").

(** ** Reading Base64, as the receiver of an [Authorization] header does *)

Module Base64Reader.

Definition value (c : ascii) : option N :=
  let n := N_of_ascii c in
  (if (65 <=? n) && (n <=? 90) then Some (n - 65)
   else if (97 <=? n) && (n <=? 122) then Some (n - 71)
   else if (48 <=? n) && (n <=? 57) then Some (n + 4)
   else if n =? 43 then Some 62
   else if n =? 47 then Some 63
   else None)%N.

(** Four characters stand for three bytes; [=] pads a last group of one or
    two bytes. *)
Fixpoint decode (s : string) : option string :=
  match s with
  | "" => Some ""
  | String a (String b (String c (String d rest))) =>
      match value a, value b with
      | Some x, Some y =>
          let first := ascii_of_N (x * 4 + y / 16) in
          if Ascii.eqb c "=" then
            if Ascii.eqb d "=" then
              match rest with
              | "" => Some (String first "")
              | _ => None
              end
            else None
          else
            match value c with
            | Some z =>
                let second := ascii_of_N (y mod 16 * 16 + z / 4) in
                if Ascii.eqb d "=" then
                  match rest with
                  | "" => Some (String first (String second ""))
                  | _ => None
                  end
                else
                  match value d, decode rest with
                  | Some w, Some tail =>
                      Some (String first (String second
                              (String (ascii_of_N (z mod 4 * 64 + w)) tail)))
                  | _, _ => None
                  end
            | None => None
            end
      | _, _ => None
      end
  | _ => None
  end%N.

End Base64Reader.

(** * Properties *)

(** ** Codecs *)

Lemma hex_decode_byte (b : byte) (rest : string) :
  Hex.decode (String (Hex.digit (Byte.to_N b / 16))
                (String (Hex.digit (Byte.to_N b mod 16)) rest))
  = match Hex.decode rest with
    | Some bytes => Some (b :: bytes)
    | None => None
    end.
Proof. destruct b; reflexivity. Qed.

Lemma hex_decode_encode (bytes : list byte) :
  Hex.decode (Hex.encode bytes) = Some bytes.
Proof.
  induction bytes as [|b bytes IH]; [reflexivity|].
  change (Hex.encode (b :: bytes))
    with (String (Hex.digit (Byte.to_N b / 16))
            (String (Hex.digit (Byte.to_N b mod 16)) (Hex.encode bytes))).
  by rewrite hex_decode_byte, IH.
Qed.

Lemma hex_encode_inj (bs1 bs2 : list byte) :
  Hex.encode bs1 = Hex.encode bs2 → bs1 = bs2.
Proof.
  intros Heq. apply (f_equal Hex.decode) in Heq.
  rewrite !hex_decode_encode in Heq. congruence.
Qed.

Section FormUrlencodedFacts.
Import FormUrlencoded.

Lemma free_of_app sep s1 s2 :
  free_of sep (s1 ++ s2) = free_of sep s1 && free_of sep s2.
Proof.
  induction s1 as [|c s1 IH]; simpl; [done|].
  rewrite IH. by destruct (Ascii.eqb c sep).
Qed.

Lemma decode_encode_byte (c : ascii) (rest : string) :
  decode (encode_byte c ++ rest) = String c (decode rest).
Proof. destruct c as [[] [] [] [] [] [] [] []]; reflexivity. Qed.

Lemma decode_encode (s : string) : decode (encode s) = s.
Proof.
  induction s as [|c s IH]; [reflexivity|].
  simpl encode. by rewrite decode_encode_byte, IH.
Qed.

Lemma encode_byte_free (c : ascii) :
  free_of "&" (encode_byte c) = true ∧ free_of "=" (encode_byte c) = true.
Proof. destruct c as [[] [] [] [] [] [] [] []]; split; reflexivity. Qed.

Lemma encode_free (s : string) :
  free_of "&" (encode s) = true ∧ free_of "=" (encode s) = true.
Proof.
  induction s as [|c s [IH1 IH2]]; [done|].
  simpl encode. rewrite !free_of_app, IH1, IH2.
  by destruct (encode_byte_free c) as [-> ->].
Qed.

Lemma split_on_free sep s : free_of sep s = true → split_on sep s = [s].
Proof.
  induction s as [|c s IH]; simpl; [done|].
  destruct (Ascii.eqb c sep); simpl; [done|].
  intros Hs. by rewrite IH.
Qed.

Lemma split_on_app sep s1 s2 :
  free_of sep s1 = true →
  split_on sep (s1 ++ String sep s2) = s1 :: split_on sep s2.
Proof.
  induction s1 as [|c s1 IH]; simpl.
  - intros _. by rewrite Ascii.eqb_refl.
  - destruct (Ascii.eqb c sep); simpl; [done|].
    intros Hs. by rewrite IH.
Qed.

Lemma cut_at_app sep s1 s2 :
  free_of sep s1 = true → cut_at sep (s1 ++ String sep s2) = (s1, s2).
Proof.
  induction s1 as [|c s1 IH]; simpl.
  - intros _. by rewrite Ascii.eqb_refl.
  - destruct (Ascii.eqb c sep); simpl; [done|].
    intros Hs. by rewrite IH.
Qed.

Lemma parse_encode_pair (p : string * string) : parse_pair (encode_pair p) = p.
Proof.
  destruct p as [k v]. unfold parse_pair, encode_pair. cbn [fst snd].
  change ("=" ++ encode v) with (String "=" (encode v)).
  rewrite cut_at_app by apply encode_free.
  by rewrite !decode_encode.
Qed.

Lemma encode_pair_free (p : string * string) : free_of "&" (encode_pair p) = true.
Proof.
  unfold encode_pair. rewrite !free_of_app.
  destruct (encode_free p.1) as [-> _], (encode_free p.2) as [-> _]. done.
Qed.

Lemma encode_pair_nonempty (p : string * string) : encode_pair p ≠ "".
Proof.
  unfold encode_pair. destruct (encode p.1); discriminate.
Qed.

(** Parsing what [toString()] wrote gives the parameters back. *)
Lemma parse_serialize (params : URLSearchParams) : parse (serialize params) = params.
Proof.
  unfold parse, serialize.
  induction params as [|p params IH]; [reflexivity|].
  destruct params as [|q params].
  - simpl join. rewrite split_on_free by apply encode_pair_free.
    rewrite filter_cons_True by apply encode_pair_nonempty.
    simpl. by rewrite parse_encode_pair.
  - change (join "&" (map encode_pair (p :: q :: params)))
      with (encode_pair p ++ String "&" (join "&" (map encode_pair (q :: params)))).
    rewrite split_on_app by apply encode_pair_free.
    rewrite filter_cons_True by apply encode_pair_nonempty.
    simpl map at 1. rewrite parse_encode_pair. f_equal. exact IH.
Qed.

End FormUrlencodedFacts.

(** ** [GET /login] *)

Lemma url_parse_authorize (q : string) :
  Url.parse ("https://accounts.spotify.com/authorize?" ++ q)
  = Some {| Url.host := "accounts.spotify.com"; Url.pathname := "/authorize"; Url.search := q |}.
Proof. reflexivity. Qed.

Lemma login_location_params (cfg : Config) (env : Env) (req : Request) :
  ∃ location u,
    login cfg env req = Respond (Redirect 302 location)
    ∧ Url.parse location = Some u
    ∧ Url.host u = "accounts.spotify.com"
    ∧ Url.pathname u = "/authorize"
    ∧ FormUrlencoded.parse (Url.search u) = login_params cfg env.
Proof.
  eexists _, _. split; [reflexivity|].
  rewrite url_parse_authorize. split; [reflexivity|].
  repeat split. apply parse_serialize.
Qed.

Lemma login_state (cfg : Config) (env : Env) (req : Request) :
  location_param "state" (login cfg env req) = Some (generateState env 16).
Proof.
  unfold location_param, login, res_redirect.
  rewrite url_parse_authorize. cbn [Url.search].
  by rewrite parse_serialize.
Qed.

Lemma generateState_nonempty (env : Env) : generateState env 16 ≠ "".
Proof. discriminate. Qed.

Lemma generateState_inj (env1 env2 : Env) (n : nat) :
  generateState env1 n = generateState env2 n → randomBytes env1 n = randomBytes env2 n.
Proof. apply hex_encode_inj. Qed.

(** C5: [GET /login] answers with a 302 redirect to host
    [accounts.spotify.com], path [/authorize], whose query carries
    [response_type=code], the configured client id, the fixed scope list, the
    configured redirect URI and a non-empty [state]; two calls whose random
    bytes differ carry different [state] values. *)
Theorem login_redirects_to_authorize
    (cfg : Config) (env : Env) (req : Request) (client_id redirect_uri : string) :
  CLIENT_ID cfg = Some client_id →
  REDIRECT_URI cfg = Some redirect_uri →
  ∃ location u state,
    login cfg env req = Respond (Redirect 302 location)
    ∧ Url.parse location = Some u
    ∧ Url.host u = "accounts.spotify.com"
    ∧ Url.pathname u = "/authorize"
    ∧ FormUrlencoded.parse (Url.search u)
      = [ ("response_type", "code"); ("client_id", client_id); ("scope", SCOPES);
          ("redirect_uri", redirect_uri); ("state", state) ]
    ∧ state ≠ ""
    ∧ location_param "state" (login cfg env req) = Some state
    ∧ ∀ env' req',
        randomBytes env 16 ≠ randomBytes env' 16 →
        location_param "state" (login cfg env' req') ≠ Some state.
Proof.
  intros Hid Huri.
  destruct (login_location_params cfg env req) as (location & u & Hl & Hu & Hh & Hp & Hq).
  exists location, u, (generateState env 16).
  repeat split; try assumption.
  - rewrite Hq. unfold login_params. rewrite Hid, Huri. reflexivity.
  - apply generateState_nonempty.
  - apply login_state.
  - intros env' req' Hbytes. rewrite login_state. intros Hst.
    apply Hbytes. symmetry. apply generateState_inj. congruence.
Qed.

Lemma login_redirects_to_authorize_witness :
  ∃ location,
    login test_config zeros (GET "/login" []) = Respond (Redirect 302 location)
    ∧ location_param "client_id" (login test_config zeros (GET "/login" []))
      = Some "test_client_id"
    ∧ location_param "state" (login test_config zeros (GET "/login" []))
      ≠ location_param "state" (login test_config ones (GET "/login" [])).
Proof.
  destruct (login_redirects_to_authorize test_config zeros (GET "/login" [])
              "test_client_id" "http://localhost:3000/callback" eq_refl eq_refl)
    as (location & u & state & Hl & Hu & _ & _ & Hq & _ & Hs & Hdiff).
  exists location. split; [exact Hl|]. split.
  - unfold location_param. rewrite Hl, Hu, Hq. reflexivity.
  - rewrite Hs. intros Heq. apply (Hdiff ones (GET "/login" [])); [|by symmetry].
    vm_compute. discriminate.
Defined.

(** ** [GET /callback] and [GET /refresh_token]: answers without a call *)

Lemma callback_error_branch (cfg : Config) (req : Request) (e : json) :
  query req !! "error" = Some e →
  truthy e = true →
  callback cfg req
  = match to_string e with
    | Ok text =>
        Respond (Json 400 (JObj {[
          "success" := JBool false;
          "error" := e;
          "message" := JStr ("Spotify authorization failed: " ++ text);
          "state" := or_else (query req !! "state") JNull ]}))
    | Throw message => Unhandled message
    end.
Proof.
  intros He Ht. unfold callback. rewrite He. simpl. rewrite Ht.
  by destruct (to_string e).
Qed.

Lemma callback_missing_code (cfg : Config) (req : Request) :
  truthy_opt (query req !! "error") = false →
  truthy_opt (query req !! "code") = false →
  callback cfg req
  = Respond (Json 400 (JObj {[
      "success" := JBool false;
      "error" := JStr "missing_code";
      "message" := JStr "No authorization code was returned by Spotify." ]})).
Proof.
  intros He Hc. unfold callback. rewrite He, Hc. reflexivity.
Qed.

Lemma refresh_missing_token (cfg : Config) (req : Request) :
  truthy_opt (query req !! "refresh_token") = false →
  refresh_token cfg req
  = Respond (Json 400 (JObj {[
      "success" := JBool false;
      "error" := JStr "missing_refresh_token";
      "message" := JStr ("Query parameter " ++ dquote ++ "refresh_token" ++ dquote
                         ++ " is required.") ]})).
Proof.
  intros Hr. unfold refresh_token. rewrite Hr. reflexivity.
Qed.

(** C6: a [GET /callback] request with neither [error] nor [code] is answered
    400 [missing_code], a [GET /refresh_token] request without
    [refresh_token] is answered 400 [missing_refresh_token], and neither
    makes an outbound call. *)
Theorem missing_parameter_rejected (cfg : Config) (req : Request) :
  (query req !! "error" = None →
   query req !! "code" = None →
   callback cfg req
   = Respond (Json 400 (JObj {[
       "success" := JBool false;
       "error" := JStr "missing_code";
       "message" := JStr "No authorization code was returned by Spotify." ]}))
   ∧ calls (callback cfg req) = [])
  ∧ (query req !! "refresh_token" = None →
     refresh_token cfg req
     = Respond (Json 400 (JObj {[
         "success" := JBool false;
         "error" := JStr "missing_refresh_token";
         "message" := JStr ("Query parameter " ++ dquote ++ "refresh_token" ++ dquote
                            ++ " is required.") ]}))
     ∧ calls (refresh_token cfg req) = []).
Proof.
  split.
  - intros He Hc. rewrite callback_missing_code by (by rewrite ?He, ?Hc). done.
  - intros Hr. rewrite refresh_missing_token by (by rewrite Hr). done.
Qed.

Lemma missing_parameter_rejected_witness :
  (status_of <$> finish (callback test_config (GET "/callback" [])) (Throw "unused")) = Some 400
  ∧ (finish (callback test_config (GET "/callback" [])) (Throw "unused")
     ≫= fun r => field r "error") = Some (JStr "missing_code")
  ∧ (status_of <$> finish (refresh_token test_config (GET "/refresh_token" [])) (Throw "unused"))
    = Some 400
  ∧ (finish (refresh_token test_config (GET "/refresh_token" [])) (Throw "unused")
     ≫= fun r => field r "error") = Some (JStr "missing_refresh_token").
Proof.
  destruct (missing_parameter_rejected test_config (GET "/callback" [])) as [Hc _].
  destruct (Hc eq_refl eq_refl) as [-> _].
  destruct (missing_parameter_rejected test_config (GET "/refresh_token" [])) as [_ Hr].
  destruct (Hr eq_refl) as [-> _].
  repeat split.
Defined.

(** C7, as the code has it: a [GET /callback] request whose [error]
    parameter is truthy (present and not the empty string) and has a text
    form is answered 400 with [success: false], that [error] value, a message
    with its text and [state], which is the [state] parameter when that is
    truthy and [null] otherwise; no outbound call is made. *)
Theorem callback_relays_authorization_error
    (cfg : Config) (req : Request) (e : json) (text : string) :
  query req !! "error" = Some e →
  truthy e = true →
  to_string e = Ok text →
  callback cfg req
  = Respond (Json 400 (JObj {[
      "success" := JBool false;
      "error" := e;
      "message" := JStr ("Spotify authorization failed: " ++ text);
      "state" := or_else (query req !! "state") JNull ]}))
  ∧ calls (callback cfg req) = [].
Proof.
  intros He Ht Hs. rewrite (callback_error_branch cfg req e He Ht), Hs. done.
Qed.

Lemma callback_relays_authorization_error_witness :
  callback test_config
    (GET "/callback" [("error", Some (JStr "access_denied")); ("state", Some (JStr "abc"))])
  = Respond (Json 400 (JObj {[
      "success" := JBool false;
      "error" := JStr "access_denied";
      "message" := JStr "Spotify authorization failed: access_denied";
      "state" := JStr "abc" ]})).
Proof.
  exact (proj1 (callback_relays_authorization_error test_config
    (GET "/callback" [("error", Some (JStr "access_denied")); ("state", Some (JStr "abc"))])
    (JStr "access_denied") "access_denied" eq_refl eq_refl eq_refl)).
Defined.

(** C7 as stated fails: the request [GET /callback?error=] has an [error]
    parameter, the empty string, and is answered with the error
    [missing_code], not with that value. *)
Lemma callback_empty_error_not_relayed :
  let req := GET "/callback" [("error", Some (JStr ""))] in
  query req !! "error" = Some (JStr "")
  ∧ callback test_config req
    = Respond (Json 400 (JObj {[
        "success" := JBool false;
        "error" := JStr "missing_code";
        "message" := JStr "No authorization code was returned by Spotify." ]}))
  ∧ (finish (callback test_config req) (Throw "unused") ≫= fun r => field r "error")
    ≠ query req !! "error".
Proof. repeat split. discriminate. Qed.

(** C10, as the code has it: when the [error] parameter of a
    [GET /callback] request is truthy, no call is made, an answer is the 400
    relay of that error, and the handler does the same for every request with
    the same [error] and [state], whatever its [code] and whatever else
    differs. *)
Theorem callback_error_precedes_code
    (cfg cfg' : Config) (req req' : Request) (e c : json) :
  query req !! "error" = Some e →
  truthy e = true →
  query req !! "code" = Some c →
  query req' !! "error" = query req !! "error" →
  query req' !! "state" = query req !! "state" →
  calls (callback cfg req) = []
  ∧ (∀ o r, finish (callback cfg req) o = Some r →
            status_of r = 400 ∧ field r "error" = Some e)
  ∧ callback cfg' req' = callback cfg req.
Proof.
  intros He Ht _ He' Hs'. rewrite He in He'.
  rewrite (callback_error_branch cfg req e He Ht).
  rewrite (callback_error_branch cfg' req' e He' Ht), Hs'.
  destruct (to_string e) as [text|message];
    (split; [done|]); (split; [|done]); intros o r Hr; simpl in Hr.
  - by injection Hr as <-.
  - discriminate.
Qed.

Lemma callback_error_precedes_code_witness :
  callback test_config
    (GET "/callback" [("error", Some (JStr "access_denied")); ("code", Some (JStr "other"))])
  = callback test_config
      (GET "/callback" [("error", Some (JStr "access_denied")); ("code", Some (JStr "abc"))]).
Proof.
  exact (proj2 (proj2 (callback_error_precedes_code test_config test_config
    (GET "/callback" [("error", Some (JStr "access_denied")); ("code", Some (JStr "abc"))])
    (GET "/callback" [("error", Some (JStr "access_denied")); ("code", Some (JStr "other"))])
    (JStr "access_denied") (JStr "abc") eq_refl eq_refl eq_refl eq_refl eq_refl))).
Defined.

(** C10 as stated fails: [GET /callback?error=&code=abc] has both
    parameters, and the handler makes the token exchange with that code. *)
Lemma callback_empty_error_exchanges_code :
  let req := GET "/callback" [("error", Some (JStr "")); ("code", Some (JStr "abc"))] in
  query req !! "error" = Some (JStr "")
  ∧ query req !! "code" = Some (JStr "abc")
  ∧ payload <$> calls (callback test_config req)
    = ["grant_type=authorization_code&code=abc&redirect_uri=http%3A%2F%2Flocalhost%3A3000%2Fcallback"].
Proof. repeat split. Qed.

(** ** [GET /callback] and [GET /refresh_token]: the provider's answer *)

Ltac relay :=
  cbn [finish calls negb];
  unfold try_catch, callback_relay, refresh_relay, get_prop, mbind, mret,
    result_bind, result_ret; cbn beta iota.

Lemma callback_awaits (cfg : Config) (req : Request) call k :
  callback cfg req = Await call k →
  k = (fun outcome =>
         try_catch (data ← outcome; callback_relay data)
           (fun message => res_json 500 [
              ("success", Some (JBool false));
              ("error", Some (JStr "token_exchange_error"));
              ("message", Some (JStr message))
            ])).
Proof.
  unfold callback.
  destruct (truthy_opt (query req !! "error"));
    [destruct (to_string_opt _); discriminate|].
  destruct (truthy_opt (query req !! "code")); [|discriminate].
  simpl. destruct (to_string_opt _); [|discriminate]. by intros [= _ <-].
Qed.

Lemma refresh_token_awaits (cfg : Config) (req : Request) call k :
  refresh_token cfg req = Await call k →
  k = (fun outcome =>
         try_catch (data ← outcome; refresh_relay data)
           (fun message => res_json 500 [
              ("success", Some (JBool false));
              ("error", Some (JStr "refresh_token_error"));
              ("message", Some (JStr message))
            ])).
Proof.
  unfold refresh_token.
  destruct (truthy_opt (query req !! "refresh_token")); [|discriminate].
  simpl. destruct (to_string_opt _); [|discriminate]. by intros [= _ <-].
Qed.

(** C1, as the code has it: when the [error] property of the provider's
    answer is truthy, both endpoints answer 400 with that [error] value, and
    with the provider's [error_description] as [message] when that is truthy,
    with a fixed text otherwise. *)
Theorem provider_error_relayed
    (cfg : Config) (req : Request) call k (props : gmap string json) (e : json) :
  props !! "error" = Some e →
  truthy e = true →
  (callback cfg req = Await call k →
   k (Ok (JObj props))
   = Json 400 (JObj {[
       "success" := JBool false;
       "error" := e;
       "message" := or_else (props !! "error_description") (JStr "Token exchange failed.") ]}))
  ∧ (refresh_token cfg req = Await call k →
     k (Ok (JObj props))
     = Json 400 (JObj {[
         "success" := JBool false;
         "error" := e;
         "message" := or_else (props !! "error_description") (JStr "Token refresh failed.") ]})).
Proof.
  intros He Ht. split; intros Hk.
  - rewrite (callback_awaits _ _ _ _ Hk). relay. rewrite He. simpl. rewrite Ht. reflexivity.
  - rewrite (refresh_token_awaits _ _ _ _ Hk). relay. rewrite He. simpl. rewrite Ht. reflexivity.
Qed.

Lemma provider_error_relayed_witness :
  finish (callback test_config (GET "/callback" [("code", Some (JStr "abc"))]))
    (Ok (JObj {[ "error" := JStr "invalid_grant";
                 "error_description" := JStr "Invalid authorization code" ]}))
  = Some (Json 400 (JObj {[
      "success" := JBool false;
      "error" := JStr "invalid_grant";
      "message" := JStr "Invalid authorization code" ]})).
Proof.
  exact (f_equal Some (proj1 (provider_error_relayed test_config
    (GET "/callback" [("code", Some (JStr "abc"))]) _ _
    {[ "error" := JStr "invalid_grant";
       "error_description" := JStr "Invalid authorization code" ]}
    (JStr "invalid_grant") eq_refl eq_refl) eq_refl)).
Defined.

(** C1 as stated fails: the provider's answer [{"error": "invalid_client"}]
    has an [error] property and no description, and the answer's [message] is
    the handler's own text. *)
Lemma provider_error_without_description :
  let props : gmap string json := {[ "error" := JStr "invalid_client" ]} in
  let answer := finish (callback test_config (GET "/callback" [("code", Some (JStr "abc"))]))
                  (Ok (JObj props)) in
  props !! "error" = Some (JStr "invalid_client")
  ∧ props !! "error_description" = None
  ∧ answer = Some (Json 400 (JObj {[
      "success" := JBool false;
      "error" := JStr "invalid_client";
      "message" := JStr "Token exchange failed." ]}))
  ∧ (answer ≫= fun r => field r "message") ≠ props !! "error_description".
Proof. repeat split. discriminate. Qed.

Lemma error_shaped_intro status (props : gmap string json) e m :
  props !! "error" = Some e → props !! "message" = Some m →
  error_shaped (Json status (JObj props)).
Proof. intros. by exists status, props, e, m. Qed.

Ltac failure_case :=
  simpl; intros [= <-]; simpl; intros Hs;
  first
    [ by destruct Hs
    | split; [split; [reflexivity|by eapply error_shaped_intro]|];
      split; [by (left + (right; split))|];
      intros Hcalls; by (destruct Hcalls + (split; intros; (discriminate + done))) ].

Lemma callback_failure (cfg : Config) (req : Request) (o : Outcome) (r : Response) :
  finish (callback cfg req) o = Some r →
  status_of r ≠ 200 →
  failure_shaped r
  ∧ (status_of r = 400
     ∨ status_of r = 500 ∧ field r "error" = Some (JStr "token_exchange_error"))
  ∧ (calls (callback cfg req) ≠ [] → (status_of r = 500 ↔ raises o = true)).
Proof.
  unfold callback.
  destruct (truthy_opt (query req !! "error")) eqn:He.
  { destruct (query req !! "error") as [e|]; [|discriminate].
    simpl. destruct (to_string e); [failure_case|discriminate]. }
  destruct (truthy_opt (query req !! "code")) eqn:Hc; [|failure_case].
  simpl. destruct (to_string_opt _); [|failure_case].
  destruct o as [data|message]; [|failure_case].
  destruct data as [| | | | |props]; relay; try failure_case.
  destruct (props !! "error") as [e|] eqn:Hpe; simpl; [|failure_case].
  destruct (truthy e); failure_case.
Qed.

Lemma refresh_token_failure (cfg : Config) (req : Request) (o : Outcome) (r : Response) :
  finish (refresh_token cfg req) o = Some r →
  status_of r ≠ 200 →
  failure_shaped r
  ∧ (status_of r = 400
     ∨ status_of r = 500 ∧ field r "error" = Some (JStr "refresh_token_error"))
  ∧ (calls (refresh_token cfg req) ≠ [] → (status_of r = 500 ↔ raises o = true)).
Proof.
  unfold refresh_token.
  destruct (truthy_opt (query req !! "refresh_token")) eqn:Hc; [|failure_case].
  simpl. destruct (to_string_opt _); [|failure_case].
  destruct o as [data|message]; [|failure_case].
  destruct data as [| | | | |props]; relay; try failure_case.
  destruct (props !! "error") as [e|] eqn:Hpe; simpl; [|failure_case].
  destruct (truthy e); failure_case.
Qed.

(** C2, as the code has it: a failure answer of [GET /callback] or
    [GET /refresh_token] is JSON with [success: false], [error] and
    [message]; its status is 400, or it is 500 with the error
    [token_exchange_error] or [refresh_token_error]; when the handler makes
    the outbound call, the status is 500 exactly when the call, or reading
    its answer, throws. *)
Theorem exchange_failure_status
    (cfg : Config) (req : Request) (o : Outcome) (r : Response) :
  (finish (callback cfg req) o = Some r →
   status_of r ≠ 200 →
   failure_shaped r
   ∧ (status_of r = 400
      ∨ status_of r = 500 ∧ field r "error" = Some (JStr "token_exchange_error"))
   ∧ (calls (callback cfg req) ≠ [] → (status_of r = 500 ↔ raises o = true)))
  ∧ (finish (refresh_token cfg req) o = Some r →
     status_of r ≠ 200 →
     failure_shaped r
     ∧ (status_of r = 400
        ∨ status_of r = 500 ∧ field r "error" = Some (JStr "refresh_token_error"))
     ∧ (calls (refresh_token cfg req) ≠ [] → (status_of r = 500 ↔ raises o = true))).
Proof.
  split; [apply callback_failure|apply refresh_token_failure].
Qed.

Lemma exchange_failure_status_witness :
  failure_shaped (Json 400 (JObj {[
    "success" := JBool false;
    "error" := JStr "invalid_grant";
    "message" := JStr "Token exchange failed." ]}))
  ∧ failure_shaped (Json 500 (JObj {[
      "success" := JBool false;
      "error" := JStr "refresh_token_error";
      "message" := JStr "socket hang up" ]})).
Proof.
  split.
  - refine (proj1 (proj1 (exchange_failure_status test_config
      (GET "/callback" [("code", Some (JStr "abc"))])
      (Ok (JObj {[ "error" := JStr "invalid_grant" ]})) _) eq_refl _)).
    discriminate.
  - refine (proj1 (proj2 (exchange_failure_status test_config
      (GET "/refresh_token" [("refresh_token", Some (JStr "R"))])
      (Throw "socket hang up") _) eq_refl _)).
    discriminate.
Defined.

(** C2 as stated fails: when the outbound call is rejected, the failure
    answer of [GET /callback] has status 500. *)
Lemma callback_rejected_call_is_500 :
  finish (callback test_config (GET "/callback" [("code", Some (JStr "abc"))]))
    (Throw "request to https://accounts.spotify.com/api/token failed")
  = Some (Json 500 (JObj {[
      "success" := JBool false;
      "error" := JStr "token_exchange_error";
      "message" := JStr "request to https://accounts.spotify.com/api/token failed" ]})).
Proof. reflexivity. Qed.

(** ** Object literals *)

Lemma object_literal_lookup_None (fields : list (string * option json)) (name : string) :
  name ∉ fields.*1 → object_literal fields !! name = None.
Proof.
  induction fields as [|[k [v|]] fields IH]; simpl; intros Hn.
  - apply lookup_empty.
  - apply not_elem_of_cons in Hn as [Hk Hn].
    rewrite lookup_insert_ne by done. by apply IH.
  - apply not_elem_of_cons in Hn as [Hk Hn]. by apply IH.
Qed.

Lemma object_literal_lookup (fields : list (string * option json)) name v :
  NoDup fields.*1 → (name, v) ∈ fields → object_literal fields !! name = v.
Proof.
  induction fields as [|[k w] fields IH]; simpl; intros Hnd Hin.
  - by apply elem_of_nil in Hin.
  - apply NoDup_cons in Hnd as [Hk Hnd].
    apply elem_of_cons in Hin as [[= -> ->]|Hin].
    + destruct w as [x|]; [apply lookup_insert_eq|].
      by apply object_literal_lookup_None.
    + assert (k ≠ name).
      { intros ->. apply Hk. apply list_elem_of_fmap. by exists (name, v). }
      destruct w as [x|]; [rewrite lookup_insert_ne by done|]; by apply IH.
Qed.

(** ** The success answers *)

Lemma callback_success_body
    (cfg : Config) (req : Request) call k (props : gmap string json) :
  callback cfg req = Await call k →
  truthy_opt (props !! "error") = false →
  k (Ok (JObj props))
  = res_json 200 [
      ("success", Some (JBool true));
      ("access_token", props !! "access_token");
      ("token_type", props !! "token_type");
      ("scope", props !! "scope");
      ("expires_in", props !! "expires_in");
      ("refresh_token", props !! "refresh_token")
    ].
Proof. intros Hk He. rewrite (callback_awaits _ _ _ _ Hk). relay. by rewrite He. Qed.

Lemma refresh_success_body
    (cfg : Config) (req : Request) call k (props : gmap string json) :
  refresh_token cfg req = Await call k →
  truthy_opt (props !! "error") = false →
  k (Ok (JObj props))
  = res_json 200 [
      ("success", Some (JBool true));
      ("access_token", props !! "access_token");
      ("token_type", props !! "token_type");
      ("scope", props !! "scope");
      ("expires_in", props !! "expires_in");
      ("refresh_token",
       if truthy_opt (props !! "refresh_token") then props !! "refresh_token" else None)
    ].
Proof. intros Hk He. rewrite (refresh_token_awaits _ _ _ _ Hk). relay. by rewrite He. Qed.

Ltac name_cases H :=
  repeat (apply elem_of_cons in H as [->|H]); [..|by apply elem_of_nil in H].

Ltac listed :=
  repeat (first [apply list_elem_of_here | apply list_elem_of_further]).

Ltac relayed_field :=
  apply object_literal_lookup;
  [ apply (bool_decide_unpack _); vm_compute; exact I | listed ].

(** C8, as the code has it: when the provider's answer has no truthy
    [error], the answer is 200 with [success: true] and the provider's
    [access_token], [token_type], [scope], [expires_in] and [refresh_token],
    each unchanged where the provider gave it (on [GET /refresh_token] the
    [refresh_token] only when it is truthy); no other property of the
    provider's answer is relayed. *)
Theorem token_fields_relayed
    (cfg : Config) (req : Request) call k (props : gmap string json) :
  truthy_opt (props !! "error") = false →
  (callback cfg req = Await call k →
   ∃ body,
     k (Ok (JObj props)) = Json 200 (JObj body)
     ∧ body !! "success" = Some (JBool true)
     ∧ (∀ name,
          name ∈ ["access_token"; "token_type"; "scope"; "expires_in"; "refresh_token"] →
          body !! name = props !! name)
     ∧ (∀ name,
          name ∉ ["success"; "access_token"; "token_type"; "scope"; "expires_in";
                  "refresh_token"] →
          body !! name = None))
  ∧ (refresh_token cfg req = Await call k →
     ∃ body,
       k (Ok (JObj props)) = Json 200 (JObj body)
       ∧ body !! "success" = Some (JBool true)
       ∧ (∀ name,
            name ∈ ["access_token"; "token_type"; "scope"; "expires_in"] →
            body !! name = props !! name)
       ∧ body !! "refresh_token"
         = (if truthy_opt (props !! "refresh_token") then props !! "refresh_token" else None)
       ∧ (∀ name,
            name ∉ ["success"; "access_token"; "token_type"; "scope"; "expires_in";
                    "refresh_token"] →
            body !! name = None)).
Proof.
  intros He. split; intros Hk.
  - rewrite (callback_success_body _ _ _ _ _ Hk He).
    eexists. split; [reflexivity|]. split; [|split].
    + relayed_field.
    + intros name Hn. name_cases Hn; relayed_field.
    + intros name Hn. by apply object_literal_lookup_None.
  - rewrite (refresh_success_body _ _ _ _ _ Hk He).
    eexists. split; [reflexivity|]. split; [|split; [|split]].
    + relayed_field.
    + intros name Hn. name_cases Hn; relayed_field.
    + relayed_field.
    + intros name Hn. by apply object_literal_lookup_None.
Qed.

Lemma token_fields_relayed_witness :
  let props : gmap string json :=
    {[ "access_token" := JStr "A"; "token_type" := JStr "Bearer";
       "scope" := JStr "user-read-private"; "expires_in" := JNum 3600;
       "refresh_token" := JStr "R" ]} in
  ∃ r,
    finish (callback test_config (GET "/callback" [("code", Some (JStr "abc"))]))
      (Ok (JObj props)) = Some r
    ∧ status_of r = 200
    ∧ field r "access_token" = Some (JStr "A")
    ∧ field r "expires_in" = Some (JNum 3600).
Proof.
  intros props.
  destruct (proj1 (token_fields_relayed test_config
              (GET "/callback" [("code", Some (JStr "abc"))]) _ _ props eq_refl) eq_refl)
    as (body & Hbody & _ & Hrelayed & _).
  exists (Json 200 (JObj body)). split; [exact (f_equal Some Hbody)|].
  cbn [status_of field]. split; [reflexivity|].
  rewrite !Hrelayed by listed.
  split; reflexivity.
Defined.

(** C8 as stated fails: a property of the provider's answer other than the
    five that the handler copies does not appear in the 200 answer. *)
Lemma provider_extra_field_dropped :
  let props : gmap string json :=
    {[ "access_token" := JStr "A"; "token_type" := JStr "Bearer";
       "expires_in" := JNum 3600; "id_token" := JStr "J" ]} in
  let answer := finish (callback test_config (GET "/callback" [("code", Some (JStr "abc"))]))
                  (Ok (JObj props)) in
  props !! "error" = None
  ∧ props !! "id_token" = Some (JStr "J")
  ∧ answer = Some (Json 200 (JObj {[
      "success" := JBool true;
      "access_token" := JStr "A";
      "token_type" := JStr "Bearer";
      "expires_in" := JNum 3600 ]}))
  ∧ (answer ≫= fun r => field r "id_token") = None.
Proof. repeat split. Qed.

(** ** The application: guard, routing and the 404 handler *)

Lemma require_env_unguarded (cfg : Config) (req : Request) :
  path req = "/" ∨ path req = "/health" → require_env cfg req = None.
Proof. unfold require_env. by intros [-> | ->]. Qed.

Lemma require_env_configured (cfg : Config) (req : Request) :
  env_truthy (CLIENT_ID cfg) = true →
  env_truthy (CLIENT_SECRET cfg) = true →
  env_truthy (REDIRECT_URI cfg) = true →
  require_env cfg req = None.
Proof.
  intros H1 H2 H3. unfold require_env. rewrite H1, H2, H3. simpl.
  by destruct (bool_decide _).
Qed.

Lemma require_env_missing (cfg : Config) (req : Request) :
  path req ≠ "/" →
  path req ≠ "/health" →
  env_truthy (CLIENT_ID cfg) && env_truthy (CLIENT_SECRET cfg)
    && env_truthy (REDIRECT_URI cfg) = false →
  require_env cfg req
  = Some (Respond (Json 500 (JObj {[
      "error" := JStr "server_misconfigured";
      "message" := JStr "SPOTIFY_CLIENT_ID, SPOTIFY_CLIENT_SECRET, and SPOTIFY_REDIRECT_URI must be set in environment variables." ]}))).
Proof.
  intros Hroot Hhealth Hcfg. unfold require_env.
  rewrite bool_decide_eq_false_2.
  - destruct (env_truthy (CLIENT_ID cfg)), (env_truthy (CLIENT_SECRET cfg)),
      (env_truthy (REDIRECT_URI cfg)); try discriminate; reflexivity.
  - intros Hin. apply elem_of_cons in Hin as [?|Hin]; [done|].
    apply elem_of_cons in Hin as [?|Hin]; [done|]. by apply elem_of_nil in Hin.
Qed.

Section Application.
Variable cors_mw json_mw : Layer.
Variable get_matches : string → Request → bool.

Lemma app_passed_on (cfg : Config) (env : Env) (req : Request) :
  passed_on cors_mw json_mw req →
  app cors_mw json_mw get_matches cfg env req
  = match require_env cfg req with
    | Some a => a
    | None => dispatch (routes get_matches cfg env) not_found req
    end.
Proof. intros [Hc Hj]. unfold app. simpl. by rewrite Hc, Hj. Qed.

Lemma unrouted_not_found (cfg : Config) (env : Env) (req : Request) :
  unrouted get_matches req →
  dispatch (routes get_matches cfg env) not_found req = not_found req.
Proof.
  intros Hu. unfold routes, app_get. simpl.
  rewrite !Hu by (repeat (first [apply list_elem_of_here | apply list_elem_of_further])).
  reflexivity.
Qed.

(** When the guard lets a request through, the first route that takes it
    serves it. *)
Lemma app_serves_login (cfg : Config) (env : Env) (req : Request) :
  passed_on cors_mw json_mw req →
  require_env cfg req = None →
  get_matches "/" req = false →
  get_matches "/health" req = false →
  get_matches "/login" req = true →
  app cors_mw json_mw get_matches cfg env req = login cfg env req.
Proof.
  intros Hp Hg H1 H2 H3. rewrite app_passed_on, Hg by done.
  unfold routes, app_get. simpl. by rewrite H1, H2, H3.
Qed.

Lemma app_serves_callback (cfg : Config) (env : Env) (req : Request) :
  passed_on cors_mw json_mw req →
  require_env cfg req = None →
  get_matches "/" req = false →
  get_matches "/health" req = false →
  get_matches "/login" req = false →
  get_matches "/callback" req = true →
  app cors_mw json_mw get_matches cfg env req = callback cfg req.
Proof.
  intros Hp Hg H1 H2 H3 H4. rewrite app_passed_on, Hg by done.
  unfold routes, app_get. simpl. by rewrite H1, H2, H3, H4.
Qed.

Lemma app_serves_refresh_token (cfg : Config) (env : Env) (req : Request) :
  passed_on cors_mw json_mw req →
  require_env cfg req = None →
  get_matches "/" req = false →
  get_matches "/health" req = false →
  get_matches "/login" req = false →
  get_matches "/callback" req = false →
  get_matches "/refresh_token" req = true →
  app cors_mw json_mw get_matches cfg env req = refresh_token cfg req.
Proof.
  intros Hp Hg H1 H2 H3 H4 H5. rewrite app_passed_on, Hg by done.
  unfold routes, app_get. simpl. by rewrite H1, H2, H3, H4, H5.
Qed.

(** C3: for a request that the library middleware passes on and whose path
    is neither [/] nor [/health], an unset [CLIENT_ID], [CLIENT_SECRET] or
    [REDIRECT_URI] gives the answer 500 [server_misconfigured], whatever the
    routes and the request's parameters are; a request to [/] or [/health]
    passes the guard whatever the configuration is, and goes to the routes. *)
Theorem misconfigured_before_routes (cfg : Config) (env : Env) (req : Request) :
  passed_on cors_mw json_mw req →
  (path req ≠ "/" →
   path req ≠ "/health" →
   CLIENT_ID cfg = None ∨ CLIENT_SECRET cfg = None ∨ REDIRECT_URI cfg = None →
   app cors_mw json_mw get_matches cfg env req
   = Respond (Json 500 (JObj {[
       "error" := JStr "server_misconfigured";
       "message" := JStr "SPOTIFY_CLIENT_ID, SPOTIFY_CLIENT_SECRET, and SPOTIFY_REDIRECT_URI must be set in environment variables." ]})))
  ∧ (path req = "/" ∨ path req = "/health" →
     require_env cfg req = None
     ∧ app cors_mw json_mw get_matches cfg env req
       = dispatch (routes get_matches cfg env) not_found req).
Proof.
  intros Hp. split.
  - intros Hroot Hhealth Hunset. rewrite app_passed_on by done.
    rewrite require_env_missing; [reflexivity|done|done|].
    destruct Hunset as [-> | [-> | ->]]; simpl;
      by rewrite ?andb_false_r.
  - intros Hpath. rewrite app_passed_on by done.
    by rewrite require_env_unguarded.
Qed.

(** C4, as the code has it: a request that the library middleware passes on
    and that none of the five routes takes is answered 404 [not_found] when
    the three configuration values are set. *)
Theorem unrouted_request_is_404 (cfg : Config) (env : Env) (req : Request) :
  passed_on cors_mw json_mw req →
  env_truthy (CLIENT_ID cfg) = true →
  env_truthy (CLIENT_SECRET cfg) = true →
  env_truthy (REDIRECT_URI cfg) = true →
  unrouted get_matches req →
  app cors_mw json_mw get_matches cfg env req
  = Respond (Json 404 (JObj {[
      "error" := JStr "not_found";
      "message" := JStr ("Route " ++ method req ++ " " ++ path req ++ " not found.") ]})).
Proof.
  intros Hp H1 H2 H3 Hu. rewrite app_passed_on by done.
  rewrite require_env_configured by done.
  by rewrite unrouted_not_found.
Qed.

(** C9: every answer of the application with an error status, to a request
    that the library middleware passes on, is JSON with the properties [error]
    and [message]. *)
Theorem error_answers_have_error_and_message
    (cfg : Config) (env : Env) (req : Request) (o : Outcome) (r : Response) :
  passed_on cors_mw json_mw req →
  finish (app cors_mw json_mw get_matches cfg env req) o = Some r →
  400 ≤ status_of r →
  error_shaped r.
Proof.
  intros Hp. rewrite app_passed_on by done.
  unfold require_env.
  destruct (bool_decide _);
    [|destruct (negb _ || negb _ || negb _);
      [intros [= <-] _; by eapply error_shaped_intro|]];
    unfold routes, app_get; simpl;
    (destruct (get_matches "/" req); [intros [= <-]; simpl; lia|]);
    (destruct (get_matches "/health" req); [intros [= <-]; simpl; lia|]);
    (destruct (get_matches "/login" req); [intros [= <-]; simpl; lia|]);
    (destruct (get_matches "/callback" req);
       [intros Hr Hs; eapply callback_failure; [exact Hr|lia]|]);
    (destruct (get_matches "/refresh_token" req);
       [intros Hr Hs; eapply refresh_token_failure; [exact Hr|lia]|]);
    intros [= <-] _; by eapply error_shaped_intro.
Qed.

End Application.

Lemma passed_on_next_always (req : Request) : passed_on next_always next_always req.
Proof. by split. Qed.

Lemma misconfigured_before_routes_witness :
  app next_always next_always exact_get unset zeros
    (GET "/callback" [("code", Some (JStr "abc"))])
  = Respond (Json 500 (JObj {[
      "error" := JStr "server_misconfigured";
      "message" := JStr "SPOTIFY_CLIENT_ID, SPOTIFY_CLIENT_SECRET, and SPOTIFY_REDIRECT_URI must be set in environment variables." ]}))
  ∧ app next_always next_always exact_get unset zeros (GET "/health" [])
    = health zeros (GET "/health" []).
Proof.
  split.
  - refine (proj1 (misconfigured_before_routes next_always next_always exact_get unset zeros
      (GET "/callback" [("code", Some (JStr "abc"))]) (conj eq_refl eq_refl)) _ _ _).
    + discriminate.
    + discriminate.
    + left. reflexivity.
  - refine (proj2 (proj2 (misconfigured_before_routes next_always next_always exact_get unset
      zeros (GET "/health" []) (conj eq_refl eq_refl)) _)).
    right. reflexivity.
Defined.

Lemma unrouted_request_is_404_witness :
  app next_always next_always exact_get test_config zeros (GET "/nonexistent" [])
  = Respond (Json 404 (JObj {[
      "error" := JStr "not_found";
      "message" := JStr "Route GET /nonexistent not found." ]})).
Proof.
  refine (unrouted_request_is_404 next_always next_always exact_get test_config zeros
    (GET "/nonexistent" []) (conj eq_refl eq_refl) eq_refl eq_refl eq_refl _).
  intros pattern Hin. name_cases Hin; reflexivity.
Defined.

(** C4 as stated fails: [/nonexistent] is none of the five paths, and with
    the configuration unset a request for it is answered 500 by the guard. *)
Lemma unknown_path_unconfigured_is_500 :
  let req := GET "/nonexistent" [] in
(path req ∉ ["/"; "/health"; "/login"; "/callback"; "/refresh_token"])
  ∧ app next_always next_always exact_get unset zeros req
    = Respond (Json 500 (JObj {[
        "error" := JStr "server_misconfigured";
        "message" := JStr "SPOTIFY_CLIENT_ID, SPOTIFY_CLIENT_SECRET, and SPOTIFY_REDIRECT_URI must be set in environment variables." ]}))
  ∧ (status_of <$> finish (app next_always next_always exact_get unset zeros req)
                     (Throw "unused")) ≠ Some 404.
Proof.
  split; [|split].
  - apply (bool_decide_unpack _). vm_compute. exact I.
  - reflexivity.
  - discriminate.
Qed.

Lemma error_answers_have_error_and_message_witness :
  error_shaped (Json 500 (JObj {[
    "success" := JBool false;
    "error" := JStr "token_exchange_error";
    "message" := JStr "socket hang up" ]})).
Proof.
  refine (error_answers_have_error_and_message next_always next_always exact_get test_config
    zeros (GET "/callback" [("code", Some (JStr "abc"))]) (Throw "socket hang up") _
    (conj eq_refl eq_refl) eq_refl _).
  vm_compute. discriminate.
Defined.

(** ** The repository's tests, on the model *)

Example test_home :
  (status_of <$> finish (app next_always next_always exact_get test_config zeros (GET "/" []))
                   (Throw "unused")) = Some 200.
Proof. reflexivity. Qed.

Example test_health :
  app next_always next_always exact_get test_config zeros (GET "/health" [])
  = Respond (Json 200 (JObj {[ "status" := JStr "ok";
                               "timestamp" := JStr "2024-01-01T00:00:00.000Z" ]})).
Proof. reflexivity. Qed.

Example test_login :
  app next_always next_always exact_get test_config zeros (GET "/login" [])
  = Respond (Redirect 302
      ("https://accounts.spotify.com/authorize?response_type=code&client_id=test_client_id"
       ++ "&scope=user-read-private+user-read-email+playlist-read-private"
       ++ "+playlist-modify-public+playlist-modify-private+user-library-read"
       ++ "+user-top-read+user-read-playback-state+user-modify-playback-state"
       ++ "&redirect_uri=http%3A%2F%2Flocalhost%3A3000%2Fcallback"
       ++ "&state=00000000000000000000000000000000")).
Proof. vm_compute. reflexivity. Qed.

Example test_callback_error :
  app next_always next_always exact_get test_config zeros
    (GET "/callback" [("error", Some (JStr "access_denied")); ("state", Some (JStr "abc"))])
  = Respond (Json 400 (JObj {[
      "success" := JBool false;
      "error" := JStr "access_denied";
      "message" := JStr "Spotify authorization failed: access_denied";
      "state" := JStr "abc" ]})).
Proof. reflexivity. Qed.

Example test_callback_missing_code :
  app next_always next_always exact_get test_config zeros (GET "/callback" [])
  = Respond (Json 400 (JObj {[
      "success" := JBool false;
      "error" := JStr "missing_code";
      "message" := JStr "No authorization code was returned by Spotify." ]})).
Proof. reflexivity. Qed.

Example test_refresh_token_missing :
  (finish (app next_always next_always exact_get test_config zeros (GET "/refresh_token" []))
     (Throw "unused") ≫= fun r => field r "error") = Some (JStr "missing_refresh_token").
Proof. reflexivity. Qed.

Example test_token_request :
  calls (app next_always next_always exact_get test_config zeros
           (GET "/refresh_token" [("refresh_token", Some (JStr "R/1"))]))
  = [ {| url := "https://accounts.spotify.com/api/token";
         http_method := "POST";
         headers := [("Content-Type", "application/x-www-form-urlencoded");
                     ("Authorization",
                      "Basic dGVzdF9jbGllbnRfaWQ6dGVzdF9jbGllbnRfc2VjcmV0")];
         payload := "grant_type=refresh_token&refresh_token=R%2F1" |} ].
Proof. vm_compute. reflexivity. Qed.

(** A query parameter that is an object with a property [toString] of its
    own has no text form: as [error] it makes the handler throw outside its
    [try] block, as [code] inside it, before any call is made. *)
Example test_unprintable_error :
  callback test_config
    (GET "/callback" [("error", Some (JObj {[ "toString" := JStr "x" ]}))])
  = Unhandled "Cannot convert object to primitive value".
Proof. reflexivity. Qed.

Example test_unprintable_code :
  callback test_config
    (GET "/callback" [("code", Some (JObj {[ "toString" := JStr "x" ]}))])
  = Respond (Json 500 (JObj {[
      "success" := JBool false;
      "error" := JStr "token_exchange_error";
      "message" := JStr "Cannot convert object to primitive value" ]})).
Proof. reflexivity. Qed.

Example test_array_code :
  payload <$> calls (callback test_config
    (GET "/callback" [("code", Some (JArr [JStr "a"; JStr "b c"]))]))
  = ["grant_type=authorization_code&code=a%2Cb+c&redirect_uri=http%3A%2F%2Flocalhost%3A3000%2Fcallback"].
Proof. reflexivity. Qed.

Example test_base64_reader :
  Base64Reader.decode "dGVzdF9jbGllbnRfaWQ6dGVzdF9jbGllbnRfc2VjcmV0"
  = Some "test_client_id:test_client_secret"
  ∧ Base64Reader.decode (Base64.encode "ab") = Some "ab"
  ∧ Base64Reader.decode (Base64.encode "a") = Some "a".
Proof. repeat split. Qed.

(** * Further properties of the code *)

(** ** [generateState] *)

Lemma hex_encode_length (bytes : list byte) :
  String.length (Hex.encode bytes) = (2 * length bytes)%nat.
Proof. induction bytes as [|b bytes IH]; simpl; [done|]. rewrite IH. lia. Qed.

Lemma hex_byte_lower (b : byte) :
  lower_hex (Hex.digit (Byte.to_N b / 16)) && lower_hex (Hex.digit (Byte.to_N b mod 16))
  = true.
Proof. destruct b; reflexivity. Qed.

Lemma hex_encode_lower (bytes : list byte) :
  every_char lower_hex (Hex.encode bytes) = true.
Proof.
  induction bytes as [|b bytes IH]; [reflexivity|].
  change (Hex.encode (b :: bytes))
    with (String (Hex.digit (Byte.to_N b / 16))
            (String (Hex.digit (Byte.to_N b mod 16)) (Hex.encode bytes))).
  cbn [every_char]. rewrite IH, andb_true_r. apply hex_byte_lower.
Qed.

Lemma randomBytes_length (env : Env) (n : nat) : length (randomBytes env n) = n.
Proof. unfold randomBytes. by rewrite length_map, length_seq. Qed.

(** X1: for every length [n], [generateState(n)] is a string of [2 * n]
    characters, each a digit or a letter from [a] to [f], and reading it as
    hexadecimal gives back the [n] random bytes. *)
Theorem generateState_shape (env : Env) (n : nat) :
  String.length (generateState env n) = (2 * n)%nat
  ∧ every_char lower_hex (generateState env n) = true
  ∧ Hex.decode (generateState env n) = Some (randomBytes env n)
  ∧ length (randomBytes env n) = n.
Proof.
  unfold generateState. rewrite hex_encode_length, randomBytes_length.
  split; [done|]. split; [apply hex_encode_lower|].
  split; [apply hex_decode_encode|done].
Qed.

Lemma string_app_assoc (a b c : string) : (a ++ b) ++ c = a ++ (b ++ c).
Proof. induction a as [|x a IH]; [done|]. change ((String x a ++ b) ++ c) with (String x ((a ++ b) ++ c)). by rewrite IH. Qed.

Lemma lower_hex_unreserved (c : ascii) :
  lower_hex c = true → FormUrlencoded.unreserved c = true.
Proof. destruct c as [[] [] [] [] [] [] [] []]; simpl; done. Qed.

Lemma encode_unreserved (s : string) :
  every_char FormUrlencoded.unreserved s = true → FormUrlencoded.encode s = s.
Proof.
  induction s as [|c s IH]; [done|]. cbn [every_char FormUrlencoded.encode].
  intros [Hc Hs]%andb_true_iff. unfold FormUrlencoded.encode_byte.
  rewrite Hc, IH by done. reflexivity.
Qed.

Lemma every_char_impl (p q : ascii → bool) (s : string) :
  (∀ c, p c = true → q c = true) → every_char p s = true → every_char q s = true.
Proof.
  intros Hpq. induction s as [|c s IH]; [done|]. cbn [every_char].
  intros [Hc Hs]%andb_true_iff. by rewrite (Hpq c Hc), IH.
Qed.

(** X2: the serializer leaves the generated state as it is, so the
    [Location] of [GET /login] ends with [&state=] and the state itself. *)
Theorem login_location_ends_with_state (cfg : Config) (env : Env) (req : Request) :
  FormUrlencoded.encode (generateState env 16) = generateState env 16
  ∧ ∃ front,
      login cfg env req
      = Respond (Redirect 302 (front ++ "&state=" ++ generateState env 16)).
Proof.
  assert (He : FormUrlencoded.encode (generateState env 16) = generateState env 16).
  { apply encode_unreserved. eapply every_char_impl; [apply lower_hex_unreserved|].
    apply hex_encode_lower. }
  split; [exact He|].
  exists ("https://accounts.spotify.com/authorize?"
          ++ FormUrlencoded.encode_pair ("response_type", "code") ++ "&"
          ++ FormUrlencoded.encode_pair ("client_id", env_string (CLIENT_ID cfg)) ++ "&"
          ++ FormUrlencoded.encode_pair ("scope", SCOPES) ++ "&"
          ++ FormUrlencoded.encode_pair ("redirect_uri", env_string (REDIRECT_URI cfg))).
  unfold login, res_redirect, login_params, FormUrlencoded.serialize.
  cbn [map join]. do 2 f_equal.
  rewrite !string_app_assoc. do 8 f_equal.
  unfold FormUrlencoded.encode_pair. cbn [fst snd]. by rewrite He.
Qed.

(** ** The outbound call *)

Lemma base64_value_digit (n : N) : (n < 64)%N → Base64Reader.value (Base64.digit n) = Some n.
Proof.
  intros Hn.
  assert (Hall : forallb (fun m => match Base64Reader.value (Base64.digit m) with
                                   | Some k => N.eqb k m
                                   | None => false
                                   end) (map N.of_nat (seq 0 64)) = true)
    by (vm_compute; reflexivity).
  rewrite forallb_forall in Hall.
  specialize (Hall n). destruct (Base64Reader.value (Base64.digit n)) as [k|].
  - f_equal. apply N.eqb_eq, Hall. apply in_map_iff. exists (N.to_nat n).
    split; [lia|]. apply in_seq. lia.
  - exfalso. enough (false = true) by discriminate. apply Hall. apply in_map_iff. exists (N.to_nat n).
    split; [lia|]. apply in_seq. lia.
Qed.

Lemma base64_digit_not_pad (n : N) : (n < 64)%N → Ascii.eqb (Base64.digit n) "=" = false.
Proof.
  intros Hn.
  assert (Hall : forallb (fun m => negb (Ascii.eqb (Base64.digit m) "="))
                   (map N.of_nat (seq 0 64)) = true)
    by (vm_compute; reflexivity).
  rewrite forallb_forall in Hall.
  apply negb_true_iff, Hall. apply in_map_iff. exists (N.to_nat n).
  split; [lia|]. apply in_seq. lia.
Qed.

Ltac euclid := intros; repeat split; zify; Z.to_euclidean_division_equations; lia.

Lemma base64_groups (x y z : N) : (x < 256 → y < 256 → z < 256 →
  x / 4 * 4 + (x mod 4 * 16 + y / 16) / 16 = x
  ∧ (x mod 4 * 16 + y / 16) mod 16 * 16 + (y mod 16 * 4 + z / 64) / 4 = y
  ∧ (y mod 16 * 4 + z / 64) mod 4 * 64 + z mod 64 = z
  ∧ x / 4 < 64 ∧ x mod 4 * 16 + y / 16 < 64 ∧ y mod 16 * 4 + z / 64 < 64 ∧ z mod 64 < 64)%N.
Proof. euclid. Qed.

Lemma base64_decode_three (a b c : ascii) (rest : string) :
  Base64Reader.decode (Base64.encode (String a (String b (String c rest))))
  = match Base64Reader.decode (Base64.encode rest) with
    | Some tail => Some (String a (String b (String c tail)))
    | None => None
    end.
Proof.
  destruct (base64_groups (N_of_ascii a) (N_of_ascii b) (N_of_ascii c))
    as (Hx & Hy & Hz & H1 & H2 & H3 & H4); try apply N_ascii_bounded.
  cbn [Base64.encode Base64Reader.decode].
  rewrite !base64_value_digit, !base64_digit_not_pad by assumption.
  rewrite Hx, Hy, Hz, !ascii_N_embedding. reflexivity.
Qed.

Lemma base64_decode_two (a b : ascii) :
  Base64Reader.decode (Base64.encode (String a (String b ""))) = Some (String a (String b "")).
Proof.
  destruct (base64_groups (N_of_ascii a) (N_of_ascii b) 0)
    as (Hx & Hy & _ & H1 & H2 & H3 & _); try apply N_ascii_bounded; [reflexivity|].
  change (0 / 64)%N with 0%N in *. rewrite N.add_0_r in *.
  cbn [Base64.encode Base64Reader.decode].
  rewrite !base64_value_digit, !base64_digit_not_pad by assumption.
  change (Ascii.eqb "=" "=") with true. cbn iota.
  rewrite Hx, Hy, !ascii_N_embedding. reflexivity.
Qed.

Lemma base64_decode_one (a : ascii) :
  Base64Reader.decode (Base64.encode (String a "")) = Some (String a "").
Proof.
  destruct (base64_groups (N_of_ascii a) 0 0)
    as (Hx & _ & _ & H1 & H2 & _ & _); try apply N_ascii_bounded; try reflexivity.
  change (0 / 16)%N with 0%N in *. rewrite N.add_0_r in *.
  cbn [Base64.encode Base64Reader.decode].
  rewrite !base64_value_digit by assumption.
  change (Ascii.eqb "=" "=") with true. cbn iota.
  rewrite Hx, !ascii_N_embedding. reflexivity.
Qed.

Lemma base64_decode_encode (s : string) : Base64Reader.decode (Base64.encode s) = Some s.
Proof.
  enough (H : Base64Reader.decode (Base64.encode s) = Some s
              ∧ (∀ a, Base64Reader.decode (Base64.encode (String a s)) = Some (String a s))
              ∧ (∀ a b, Base64Reader.decode (Base64.encode (String a (String b s)))
                        = Some (String a (String b s)))) by apply H.
  induction s as [|c s (IH0 & IH1 & IH2)].
  - split; [reflexivity|]. split; [apply base64_decode_one|apply base64_decode_two].
  - split; [apply IH1|]. split; [intros a; apply (IH2 a c)|].
    intros a b. by rewrite base64_decode_three, IH0.
Qed.

Lemma requestSpotifyTokens_authorization (cfg : Config) (body : FormUrlencoded.URLSearchParams) :
  FormUrlencoded.get "Authorization" (headers (requestSpotifyTokens cfg body))
  = Some ("Basic " ++ Base64.encode
            (env_string (CLIENT_ID cfg) ++ ":" ++ env_string (CLIENT_SECRET cfg))).
Proof. reflexivity. Qed.

(** X3: the [Authorization] header of the outbound call is [Basic] followed
    by a Base64 text that reads back as the client id, a colon and the client
    secret; two configurations that give the same header have the same
    credentials. *)
Theorem authorization_carries_credentials
    (cfg cfg' : Config) (body body' : FormUrlencoded.URLSearchParams) :
  (∃ text,
     FormUrlencoded.get "Authorization" (headers (requestSpotifyTokens cfg body))
     = Some ("Basic " ++ text)
     ∧ Base64Reader.decode text
       = Some (env_string (CLIENT_ID cfg) ++ ":" ++ env_string (CLIENT_SECRET cfg)))
  ∧ (headers (requestSpotifyTokens cfg body) = headers (requestSpotifyTokens cfg' body') →
     env_string (CLIENT_ID cfg) ++ ":" ++ env_string (CLIENT_SECRET cfg)
     = env_string (CLIENT_ID cfg') ++ ":" ++ env_string (CLIENT_SECRET cfg')).
Proof.
  split.
  - eexists. split; [apply requestSpotifyTokens_authorization|].
    apply base64_decode_encode.
  - intros Hh. apply (f_equal (FormUrlencoded.get "Authorization")) in Hh.
    rewrite !requestSpotifyTokens_authorization in Hh.
    assert (Ht : Base64.encode (env_string (CLIENT_ID cfg) ++ ":"
                                ++ env_string (CLIENT_SECRET cfg))
                 = Base64.encode (env_string (CLIENT_ID cfg') ++ ":"
                                  ++ env_string (CLIENT_SECRET cfg'))).
    { assert (Hs := Hh). apply (inj Some) in Hs. by apply (inj (String.app "Basic ")) in Hs. }
    apply (f_equal Base64Reader.decode) in Ht.
    rewrite !base64_decode_encode in Ht. congruence.
Qed.

Lemma authorization_carries_credentials_witness :
  ∃ text,
    FormUrlencoded.get "Authorization" (headers (requestSpotifyTokens test_config []))
    = Some ("Basic " ++ text)
    ∧ Base64Reader.decode text = Some "test_client_id:test_client_secret".
Proof.
  exact (proj1 (authorization_carries_credentials test_config test_config [] [])).
Defined.

Lemma callback_exchange (cfg : Config) (req : Request) (c : json) (t : string) :
  truthy_opt (query req !! "error") = false →
  query req !! "code" = Some c →
  truthy c = true →
  to_string c = Ok t →
  callback cfg req
  = Await (requestSpotifyTokens cfg [
             ("grant_type", "authorization_code");
             ("code", t);
             ("redirect_uri", env_string (REDIRECT_URI cfg)) ])
      (fun outcome =>
         try_catch (data ← outcome; callback_relay data)
           (fun message => res_json 500 [
              ("success", Some (JBool false));
              ("error", Some (JStr "token_exchange_error"));
              ("message", Some (JStr message))
            ])).
Proof.
  intros He Hc Ht Hs. unfold callback. rewrite He, Hc. simpl. by rewrite Ht, Hs.
Qed.

Lemma refresh_exchange (cfg : Config) (req : Request) (c : json) (t : string) :
  query req !! "refresh_token" = Some c →
  truthy c = true →
  to_string c = Ok t →
  refresh_token cfg req
  = Await (requestSpotifyTokens cfg [
             ("grant_type", "refresh_token");
             ("refresh_token", t) ])
      (fun outcome =>
         try_catch (data ← outcome; refresh_relay data)
           (fun message => res_json 500 [
              ("success", Some (JBool false));
              ("error", Some (JStr "refresh_token_error"));
              ("message", Some (JStr message))
            ])).
Proof.
  intros Hc Ht Hs. unfold refresh_token. rewrite Hc. simpl. by rewrite Ht, Hs.
Qed.

(** X4: when [GET /callback] has no truthy [error] and a truthy [code]
    with a text form, the handler makes exactly one call: a [POST] to the
    provider's token URL with a form body that reads back as
    [grant_type=authorization_code], that code and the configured redirect
    URI, in this order and nothing else. *)
Theorem callback_exchange_request (cfg : Config) (req : Request) (c : json) (t : string) :
  truthy_opt (query req !! "error") = false →
  query req !! "code" = Some c →
  truthy c = true →
  to_string c = Ok t →
  ∃ call,
    calls (callback cfg req) = [call]
    ∧ url call = "https://accounts.spotify.com/api/token"
    ∧ http_method call = "POST"
    ∧ FormUrlencoded.get "Content-Type" (headers call)
      = Some "application/x-www-form-urlencoded"
    ∧ FormUrlencoded.parse (payload call)
      = [ ("grant_type", "authorization_code"); ("code", t);
          ("redirect_uri", env_string (REDIRECT_URI cfg)) ].
Proof.
  intros He Hc Ht Hs. rewrite (callback_exchange cfg req c t He Hc Ht Hs).
  eexists. split; [reflexivity|]. repeat split. apply parse_serialize.
Qed.

Lemma callback_exchange_request_witness :
  ∃ call,
    calls (callback test_config (GET "/callback" [("code", Some (JStr "a/b c"))])) = [call]
    ∧ FormUrlencoded.parse (payload call)
      = [ ("grant_type", "authorization_code"); ("code", "a/b c");
          ("redirect_uri", "http://localhost:3000/callback") ].
Proof.
  destruct (callback_exchange_request test_config
              (GET "/callback" [("code", Some (JStr "a/b c"))]) (JStr "a/b c") "a/b c"
              eq_refl eq_refl eq_refl eq_refl) as (call & Hcall & _ & _ & _ & Hp).
  exists call. split; [exact Hcall|exact Hp].
Defined.

(** X5: when [GET /refresh_token] has a truthy [refresh_token] with a text
    form, the handler makes exactly one call: a [POST] to the provider's token
    URL with a form body that reads back as [grant_type=refresh_token] and that
    token, and nothing else. *)
Theorem refresh_exchange_request (cfg : Config) (req : Request) (c : json) (t : string) :
  query req !! "refresh_token" = Some c →
  truthy c = true →
  to_string c = Ok t →
  ∃ call,
    calls (refresh_token cfg req) = [call]
    ∧ url call = "https://accounts.spotify.com/api/token"
    ∧ http_method call = "POST"
    ∧ FormUrlencoded.get "Content-Type" (headers call)
      = Some "application/x-www-form-urlencoded"
    ∧ FormUrlencoded.parse (payload call)
      = [ ("grant_type", "refresh_token"); ("refresh_token", t) ].
Proof.
  intros Hc Ht Hs. rewrite (refresh_exchange cfg req c t Hc Ht Hs).
  eexists. split; [reflexivity|]. repeat split. apply parse_serialize.
Qed.

Lemma refresh_exchange_request_witness :
  ∃ call,
    calls (refresh_token test_config
             (GET "/refresh_token" [("refresh_token", Some (JStr "R&x=1"))])) = [call]
    ∧ FormUrlencoded.parse (payload call)
      = [ ("grant_type", "refresh_token"); ("refresh_token", "R&x=1") ].
Proof.
  destruct (refresh_exchange_request test_config
              (GET "/refresh_token" [("refresh_token", Some (JStr "R&x=1"))])
              (JStr "R&x=1") "R&x=1" eq_refl eq_refl eq_refl)
    as (call & Hcall & _ & _ & _ & Hp).
  exists call. split; [exact Hcall|exact Hp].
Defined.

(** X6: [GET /callback] calls the provider exactly when [error] is falsy and
    [code] is truthy and has a text form; [GET /refresh_token] exactly when
    [refresh_token] is truthy and has a text form. Neither makes more than one
    call. *)
Theorem provider_called_iff (cfg : Config) (req : Request) :
  (calls (callback cfg req) ≠ []
   ↔ truthy_opt (query req !! "error") = false
     ∧ truthy_opt (query req !! "code") = true
     ∧ ∃ t, to_string_opt (query req !! "code") = Ok t)
  ∧ (calls (refresh_token cfg req) ≠ []
     ↔ truthy_opt (query req !! "refresh_token") = true
       ∧ ∃ t, to_string_opt (query req !! "refresh_token") = Ok t)
  ∧ (length (calls (callback cfg req)) ≤ 1)%nat
  ∧ (length (calls (refresh_token cfg req)) ≤ 1)%nat.
Proof.
  split; [|split; [|split]].
  - unfold callback.
    destruct (truthy_opt (query req !! "error")).
    { destruct (to_string_opt (query req !! "error")); simpl;
        (split; [done|by intros [? _]]). }
    destruct (truthy_opt (query req !! "code")); simpl;
      [|split; [done|by intros (_ & ? & _)]].
    destruct (to_string_opt (query req !! "code")) as [t|m]; simpl.
    + split; [intros _; eauto|done].
    + split; [done|by intros (_ & _ & ? & ?)].
  - unfold refresh_token.
    destruct (truthy_opt (query req !! "refresh_token")); simpl;
      [|split; [done|by intros [? _]]].
    destruct (to_string_opt (query req !! "refresh_token")) as [t|m]; simpl.
    + split; [intros _; eauto|done].
    + split; [done|by intros (_ & ? & ?)].
  - destruct (callback cfg req); simpl; lia.
  - destruct (refresh_token cfg req); simpl; lia.
Qed.

(** ** Query values without a text form, and plain ones *)

Lemma to_string_shadowed (v : json) :
  shadows_toString v → to_string v = Throw "Cannot convert object to primitive value".
Proof. intros (props & -> & [x Hx]). simpl. by rewrite Hx. Qed.

Lemma shadowed_truthy (v : json) : shadows_toString v → truthy v = true.
Proof. by intros (props & -> & _). Qed.

(** X7: a [GET /callback] request whose [error] parameter is an object with
    a [toString] entry of its own makes the handler throw outside its [try]
    block: the handler sends no answer, and makes no call. *)
Theorem callback_unprintable_error_unanswered
    (cfg : Config) (req : Request) (e : json) (o : Outcome) :
  query req !! "error" = Some e →
  shadows_toString e →
  callback cfg req = Unhandled "Cannot convert object to primitive value"
  ∧ finish (callback cfg req) o = None
  ∧ calls (callback cfg req) = [].
Proof.
  intros He Hs.
  rewrite (callback_error_branch cfg req e He (shadowed_truthy e Hs)).
  by rewrite (to_string_shadowed e Hs).
Qed.

Lemma callback_unprintable_error_unanswered_witness :
  finish (callback test_config
            (GET "/callback" [("error", Some (JObj {[ "toString" := JStr "x" ]}))]))
    (Throw "unused") = None.
Proof.
  refine (proj1 (proj2 (callback_unprintable_error_unanswered test_config
    (GET "/callback" [("error", Some (JObj {[ "toString" := JStr "x" ]}))])
    (JObj {[ "toString" := JStr "x" ]}) (Throw "unused") eq_refl _))).
  exists {[ "toString" := JStr "x" ]}. split; [reflexivity|]. by eexists.
Defined.

(** X8: a [code] (on [GET /callback], with no truthy [error]) or a
    [refresh_token] (on [GET /refresh_token]) that is an object with a
    [toString] entry of its own throws inside the [try] block, before the
    call: the answer is 500 with the handler's error code and the exception's
    message, and the provider is not called. *)
Theorem unprintable_token_is_500_without_call (cfg : Config) (req : Request) (c : json) :
  shadows_toString c →
  (truthy_opt (query req !! "error") = false →
   query req !! "code" = Some c →
   callback cfg req
   = Respond (Json 500 (JObj {[
       "success" := JBool false;
       "error" := JStr "token_exchange_error";
       "message" := JStr "Cannot convert object to primitive value" ]}))
   ∧ calls (callback cfg req) = [])
  ∧ (query req !! "refresh_token" = Some c →
     refresh_token cfg req
     = Respond (Json 500 (JObj {[
         "success" := JBool false;
         "error" := JStr "refresh_token_error";
         "message" := JStr "Cannot convert object to primitive value" ]}))
     ∧ calls (refresh_token cfg req) = []).
Proof.
  intros Hs. pose proof (shadowed_truthy c Hs) as Ht.
  pose proof (to_string_shadowed c Hs) as Hx. split.
  - intros He Hc. unfold callback. rewrite He, Hc. simpl. by rewrite Ht, Hx.
  - intros Hc. unfold refresh_token. rewrite Hc. simpl. by rewrite Ht, Hx.
Qed.

Lemma unprintable_token_is_500_without_call_witness :
  calls (refresh_token test_config
           (GET "/refresh_token"
              [("refresh_token", Some (JObj {[ "toString" := JStr "x" ]}))])) = [].
Proof.
  refine (proj2 (proj2 (unprintable_token_is_500_without_call test_config
    (GET "/refresh_token" [("refresh_token", Some (JObj {[ "toString" := JStr "x" ]}))])
    (JObj {[ "toString" := JStr "x" ]}) _) eq_refl)).
  exists {[ "toString" := JStr "x" ]}. split; [reflexivity|]. by eexists.
Defined.

Lemma to_string_strings (ss : list string) :
  to_string (JArr (JStr <$> ss)) = Ok (join "," ss).
Proof.
  cbn [to_string].
  match goal with
  | |- (?texts _ ≫= _) = _ => assert (Ht : ∀ l : list string, texts (JStr <$> l) = Ok l)
  end.
  { induction l as [|s l IH]; [reflexivity|].
    cbn [fmap list_fmap]. cbn beta iota. rewrite IH. reflexivity. }
  rewrite Ht. reflexivity.
Qed.

Lemma plain_items (items : list json) :
  forallb (fun item => match item with JStr _ => true | _ => false end) items = true →
  ∃ ss, items = JStr <$> ss.
Proof.
  induction items as [|item items IH]; simpl.
  - by exists [].
  - destruct item; try discriminate. intros [ss ->]%IH. by exists (s :: ss).
Qed.

Lemma plain_value_text (v : json) : plain_value v = true → ∃ t, to_string v = Ok t.
Proof.
  destruct v; try discriminate.
  - intros _. by eexists.
  - intros [ss ->]%plain_items. rewrite to_string_strings. by eexists.
Qed.

(** X9: a repeated [code] parameter, which the query parser gives as an
    array of strings, is sent to the provider as one [code]: the strings
    joined by commas. *)
Theorem repeated_code_joined (cfg : Config) (req : Request) (codes : list string) :
  truthy_opt (query req !! "error") = false →
  query req !! "code" = Some (JArr (JStr <$> codes)) →
  ∃ call,
    calls (callback cfg req) = [call]
    ∧ FormUrlencoded.get "code" (FormUrlencoded.parse (payload call))
      = Some (join "," codes).
Proof.
  intros He Hc.
  rewrite (callback_exchange cfg req _ _ He Hc eq_refl (to_string_strings codes)).
  eexists. split; [reflexivity|]. cbn [payload requestSpotifyTokens].
  by rewrite parse_serialize.
Qed.

Lemma repeated_code_joined_witness :
  ∃ call,
    calls (callback test_config
             (GET "/callback" [("code", Some (JArr [JStr "a"; JStr "b"]))])) = [call]
    ∧ FormUrlencoded.get "code" (FormUrlencoded.parse (payload call)) = Some "a,b".
Proof.
  exact (repeated_code_joined test_config
           (GET "/callback" [("code", Some (JArr [JStr "a"; JStr "b"]))]) ["a"; "b"]
           eq_refl eq_refl).
Defined.

(** ** The guard *)

Lemma env_truthy_provided (v : option string) : env_truthy v = true ↔ provided v.
Proof.
  unfold provided. destruct v as [s|]; simpl.
  - destruct (String.eqb_spec s ""); simpl; split.
    + discriminate.
    + intros (s' & [= <-] & Hs). done.
    + intros _. by exists s.
    + done.
  - split; [discriminate|]. by intros (s & ? & _).
Qed.

(** X10: the guard lets a request through exactly when its path is [/] or
    [/health], or each of the three variables is set to a string that is not
    empty; in every other case, a variable set to the empty string included,
    it answers 500 [server_misconfigured]. *)
Theorem guard_passes_iff (cfg : Config) (req : Request) :
  (require_env cfg req = None
   ↔ path req = "/" ∨ path req = "/health"
     ∨ provided (CLIENT_ID cfg) ∧ provided (CLIENT_SECRET cfg) ∧ provided (REDIRECT_URI cfg))
  ∧ (require_env cfg req = None
     ∨ require_env cfg req
       = Some (Respond (Json 500 (JObj {[
           "error" := JStr "server_misconfigured";
           "message" := JStr "SPOTIFY_CLIENT_ID, SPOTIFY_CLIENT_SECRET, and SPOTIFY_REDIRECT_URI must be set in environment variables." ]})))).
Proof.
  rewrite <- !env_truthy_provided. unfold require_env.
  destruct (decide (path req = "/")) as [Hr|Hr].
  { rewrite Hr. simpl. split; [|by left]. split; [by left|done]. }
  destruct (decide (path req = "/health")) as [Hh|Hh].
  { rewrite Hh. simpl. split; [|by left]. split; [by right; left|done]. }
  rewrite bool_decide_eq_false_2.
  2:{ intros Hin. apply elem_of_cons in Hin as [?|Hin]; [done|].
      apply elem_of_cons in Hin as [?|Hin]; [done|]. by apply elem_of_nil in Hin. }
  destruct (env_truthy (CLIENT_ID cfg)), (env_truthy (CLIENT_SECRET cfg)),
    (env_truthy (REDIRECT_URI cfg)); simpl;
    (split; [split; [try done; intros _; by right; right
                    |try done; intros [?|[?|(? & ? & ?)]]; done]
            |first [by left | by right]]).
Qed.

Example test_guard_empty_secret :
  require_env {| CLIENT_ID := Some "id"; CLIENT_SECRET := Some ""; REDIRECT_URI := Some "uri" |}
    (GET "/login" [])
  ≠ None.
Proof. discriminate. Qed.

(** ** The provider's answer: edge cases *)

(** X11: when the provider's answer is valid JSON but neither an object nor
    [null] (a number, a string, a boolean, an array), both handlers report
    success: the answer is 200 with the body [{success: true}] and no token. *)
Theorem non_object_answer_is_success
    (cfg : Config) (req : Request) call k (data : json) :
  data ≠ JNull →
  (∀ props, data ≠ JObj props) →
  (callback cfg req = Await call k →
   k (Ok data) = Json 200 (JObj {[ "success" := JBool true ]}))
  ∧ (refresh_token cfg req = Await call k →
     k (Ok data) = Json 200 (JObj {[ "success" := JBool true ]})).
Proof.
  intros Hnull Hobj. split; intros Hk.
  - rewrite (callback_awaits _ _ _ _ Hk).
    destruct data as [| | | | |props]; try reflexivity; [done|by destruct (Hobj props)].
  - rewrite (refresh_token_awaits _ _ _ _ Hk).
    destruct data as [| | | | |props]; try reflexivity; [done|by destruct (Hobj props)].
Qed.

Lemma non_object_answer_is_success_witness :
  finish (callback test_config (GET "/callback" [("code", Some (JStr "abc"))]))
    (Ok (JArr []))
  = Some (Json 200 (JObj {[ "success" := JBool true ]})).
Proof.
  refine (f_equal Some (proj1 (non_object_answer_is_success test_config
    (GET "/callback" [("code", Some (JStr "abc"))]) _ _ (JArr []) _ _) eq_refl));
    discriminate.
Defined.

(** X12: when the outbound call is rejected, the handler's 500 answer
    carries the exception's message unchanged; when the provider's answer is
    [null], reading it throws and the answer is 500 as well. The error code is
    [token_exchange_error] on [GET /callback], [refresh_token_error] on
    [GET /refresh_token]. *)
Theorem thrown_exchange_reported (cfg : Config) (req : Request) call k (message : string) :
  (callback cfg req = Await call k →
   k (Throw message)
   = Json 500 (JObj {[
       "success" := JBool false;
       "error" := JStr "token_exchange_error";
       "message" := JStr message ]})
   ∧ status_of (k (Ok JNull)) = 500
   ∧ field (k (Ok JNull)) "error" = Some (JStr "token_exchange_error"))
  ∧ (refresh_token cfg req = Await call k →
     k (Throw message)
     = Json 500 (JObj {[
         "success" := JBool false;
         "error" := JStr "refresh_token_error";
         "message" := JStr message ]})
     ∧ status_of (k (Ok JNull)) = 500
     ∧ field (k (Ok JNull)) "error" = Some (JStr "refresh_token_error")).
Proof.
  split; intros Hk.
  - by rewrite (callback_awaits _ _ _ _ Hk).
  - by rewrite (refresh_token_awaits _ _ _ _ Hk).
Qed.

Lemma thrown_exchange_reported_witness :
  finish (refresh_token test_config
            (GET "/refresh_token" [("refresh_token", Some (JStr "R"))]))
    (Throw "socket hang up")
  = Some (Json 500 (JObj {[
      "success" := JBool false;
      "error" := JStr "refresh_token_error";
      "message" := JStr "socket hang up" ]})).
Proof.
  exact (f_equal Some (proj1 (proj2 (thrown_exchange_reported test_config
    (GET "/refresh_token" [("refresh_token", Some (JStr "R"))]) _ _ "socket hang up")
    eq_refl))).
Defined.

(** ** The application as a whole *)

Lemma callback_secret_free (cfg cfg' : Config) (req : Request) (o : Outcome) :
  REDIRECT_URI cfg = REDIRECT_URI cfg' →
  finish (callback cfg req) o = finish (callback cfg' req) o
  ∧ payload <$> calls (callback cfg req) = payload <$> calls (callback cfg' req).
Proof.
  intros Hu. unfold callback. rewrite Hu.
  destruct (truthy_opt (query req !! "error"));
    [by destruct (to_string_opt (query req !! "error"))|].
  destruct (truthy_opt (query req !! "code")); [|done].
  simpl. by destruct (to_string_opt (query req !! "code")).
Qed.

Lemma refresh_token_secret_free (cfg cfg' : Config) (req : Request) (o : Outcome) :
  finish (refresh_token cfg req) o = finish (refresh_token cfg' req) o
  ∧ payload <$> calls (refresh_token cfg req) = payload <$> calls (refresh_token cfg' req).
Proof.
  unfold refresh_token.
  destruct (truthy_opt (query req !! "refresh_token")); [|done].
  simpl. by destruct (to_string_opt (query req !! "refresh_token")).
Qed.

Lemma callback_answers_plain (cfg : Config) (req : Request) (o : Outcome) :
  plain_query (query req) → is_Some (finish (callback cfg req) o).
Proof.
  intros Hq. unfold callback.
  destruct (query req !! "error") as [e|] eqn:He; simpl.
  - destruct (truthy e); [|].
    + destruct (plain_value_text e (Hq _ _ He)) as [t ->]. by eexists.
    + destruct (negb _); [by eexists|]. destruct (to_string_opt _); by eexists.
  - destruct (negb _); [by eexists|]. destruct (to_string_opt _); by eexists.
Qed.

Lemma refresh_token_answers (cfg : Config) (req : Request) (o : Outcome) :
  is_Some (finish (refresh_token cfg req) o).
Proof.
  unfold refresh_token. destruct (negb _); [by eexists|].
  destruct (to_string_opt _); by eexists.
Qed.

Lemma guard_cases (cfg : Config) (req : Request) :
  require_env cfg req = None
  ∨ require_env cfg req
    = Some (Respond (Json 500 (JObj {[
        "error" := JStr "server_misconfigured";
        "message" := JStr "SPOTIFY_CLIENT_ID, SPOTIFY_CLIENT_SECRET, and SPOTIFY_REDIRECT_URI must be set in environment variables." ]}))).
Proof.
  unfold require_env. destruct (bool_decide _); [by left|].
  destruct (negb _ || negb _ || negb _); [by right|by left].
Qed.

Section Whole.
Variable cors_mw json_mw : Layer.
Variable get_matches : string → Request → bool.

(** X13: [/] and [/health] answer without any configuration: for a request
    with path [/] that the [/] route takes, the answer is the 200 listing of
    the endpoints, and for a request with path [/health] that the [/health]
    route takes, it is 200 with [status: ok] and the clock's reading, whatever
    the three variables are, and without a call. *)
Theorem home_and_health_need_no_configuration
    (cfg : Config) (env : Env) (req : Request) :
  passed_on cors_mw json_mw req →
  (path req = "/" →
   get_matches "/" req = true →
   app cors_mw json_mw get_matches cfg env req = home req
   ∧ app cors_mw json_mw get_matches cfg env req
     = app cors_mw json_mw get_matches unset env req)
  ∧ (path req = "/health" →
     get_matches "/" req = false →
     get_matches "/health" req = true →
     app cors_mw json_mw get_matches cfg env req
     = Respond (Json 200 (JObj {[ "status" := JStr "ok"; "timestamp" := JStr (now env) ]}))).
Proof.
  intros Hp. split.
  - intros Hpath Hm. rewrite !app_passed_on by done.
    rewrite !require_env_unguarded by (by left).
    unfold routes, app_get. simpl. by rewrite Hm.
  - intros Hpath H1 H2. rewrite !app_passed_on by done.
    rewrite !require_env_unguarded by (by right).
    unfold routes, app_get. simpl. by rewrite H1, H2.
Qed.

(** X14: the application answers every request that the library middleware
    passes on and whose query values are strings or arrays of strings: no
    handler throws outside its [try] block. *)
Theorem plain_request_answered
    (cfg : Config) (env : Env) (req : Request) (o : Outcome) :
  passed_on cors_mw json_mw req →
  plain_query (query req) →
  ∃ r, finish (app cors_mw json_mw get_matches cfg env req) o = Some r.
Proof.
  intros Hp Hq. rewrite app_passed_on by done.
  destruct (guard_cases cfg req) as [-> | ->]; [|by eexists].
  unfold routes, app_get. simpl.
  destruct (get_matches "/" req); [by eexists|].
  destruct (get_matches "/health" req); [by eexists|].
  destruct (get_matches "/login" req); [by eexists|].
  destruct (get_matches "/callback" req); [by apply callback_answers_plain|].
  destruct (get_matches "/refresh_token" req); [by apply refresh_token_answers|].
  by eexists.
Qed.

(** X15: the client secret reaches the caller in no way: two
    configurations with the same client id and redirect URI, whose secrets are
    both provided or both missing, give the same answer to every request and
    every outcome of the call, and send the same form body to the same URL; they
    can differ in the headers of the outbound call only. *)
Theorem client_secret_stays_out_of_answers
    (cfg cfg' : Config) (env : Env) (req : Request) (o : Outcome) :
  CLIENT_ID cfg = CLIENT_ID cfg' →
  REDIRECT_URI cfg = REDIRECT_URI cfg' →
  env_truthy (CLIENT_SECRET cfg) = env_truthy (CLIENT_SECRET cfg') →
  finish (app cors_mw json_mw get_matches cfg env req) o
  = finish (app cors_mw json_mw get_matches cfg' env req) o
  ∧ payload <$> calls (app cors_mw json_mw get_matches cfg env req)
    = payload <$> calls (app cors_mw json_mw get_matches cfg' env req)
  ∧ url <$> calls (app cors_mw json_mw get_matches cfg env req)
    = url <$> calls (app cors_mw json_mw get_matches cfg' env req).
Proof.
  intros Hid Huri Hsecret. unfold app. simpl.
  destruct (cors_mw req); [done|]. destruct (json_mw req); [done|].
  assert (Hg : require_env cfg req = require_env cfg' req).
  { unfold require_env. by rewrite Hid, Huri, Hsecret. }
  rewrite Hg. destruct (require_env cfg' req); [done|].
  unfold app_get.
  destruct (get_matches "/" req); [done|].
  destruct (get_matches "/health" req); [done|].
  destruct (get_matches "/login" req).
  { unfold login, login_params. by rewrite Hid, Huri. }
  destruct (get_matches "/callback" req).
  { destruct (callback_secret_free cfg cfg' req o Huri) as [-> Hp].
    split; [done|]. split; [done|].
    unfold callback.
    destruct (truthy_opt (query req !! "error"));
      [by destruct (to_string_opt (query req !! "error"))|].
    destruct (truthy_opt (query req !! "code")); [|done].
    simpl. by destruct (to_string_opt (query req !! "code")). }
  destruct (get_matches "/refresh_token" req); [|done].
  destruct (refresh_token_secret_free cfg cfg' req o) as [-> Hp].
  split; [done|]. split; [done|].
  unfold refresh_token.
  destruct (truthy_opt (query req !! "refresh_token")); [|done].
  simpl. by destruct (to_string_opt (query req !! "refresh_token")).
Qed.

(** X16: the application answers with one of five status codes only: 200,
    302, 400, 404 and 500; and a redirect is always a 302 to the provider's
    authorization page. *)
Theorem answer_statuses
    (cfg : Config) (env : Env) (req : Request) (o : Outcome) (r : Response) :
  passed_on cors_mw json_mw req →
  finish (app cors_mw json_mw get_matches cfg env req) o = Some r →
  status_of r ∈ [200; 302; 400; 404; 500]
  ∧ ∀ status location,
      r = Redirect status location →
      status = 302
      ∧ ∃ q, location = "https://accounts.spotify.com/authorize?" ++ q.
Proof.
  intros Hp. rewrite app_passed_on by done.
  destruct (guard_cases cfg req) as [-> | ->];
    [|intros [= <-]; split; [simpl; listed|done]].
  unfold routes, app_get. simpl.
  destruct (get_matches "/" req); [intros [= <-]; split; [simpl; listed|done]|].
  destruct (get_matches "/health" req); [intros [= <-]; split; [simpl; listed|done]|].
  destruct (get_matches "/login" req).
  { intros [= <-]. split; [simpl; listed|]. intros status location [= <- <-].
    split; [done|]. by eexists. }
  destruct (get_matches "/callback" req).
  { intros Hr. destruct (decide (status_of r = 200)) as [H200|H200].
    - split; [rewrite H200; listed|]. intros status location ->.
      exfalso. revert Hr. unfold callback.
      destruct (truthy_opt _); [by destruct (to_string_opt _)|].
      destruct (negb _); [done|]. simpl.
      destruct (to_string_opt _); [|done]. intros [= Hr]. revert Hr.
      destruct o as [data|m]; [|done].
      destruct data as [| | | | |props]; relay; try done.
      by destruct (truthy_opt (props !! "error")).
    - destruct (callback_failure cfg req o r Hr H200) as (Hshape & Hst & _).
      split; [destruct Hst as [-> | [-> _]]; listed|].
      intros status location ->. by destruct Hshape as [? _]. }
  destruct (get_matches "/refresh_token" req).
  { intros Hr. destruct (decide (status_of r = 200)) as [H200|H200].
    - split; [rewrite H200; listed|]. intros status location ->.
      exfalso. revert Hr. unfold refresh_token.
      destruct (negb _); [done|]. simpl.
      destruct (to_string_opt _); [|done]. intros [= Hr]. revert Hr.
      destruct o as [data|m]; [|done].
      destruct data as [| | | | |props]; relay; try done.
      by destruct (truthy_opt (props !! "error")).
    - destruct (refresh_token_failure cfg req o r Hr H200) as (Hshape & Hst & _).
      split; [destruct Hst as [-> | [-> _]]; listed|].
      intros status location ->. by destruct Hshape as [? _]. }
  intros [= <-]. split; [simpl; listed|done].
Qed.

End Whole.

Lemma home_and_health_need_no_configuration_witness :
  app next_always next_always exact_get unset zeros (GET "/health" [])
  = Respond (Json 200 (JObj {[ "status" := JStr "ok";
                               "timestamp" := JStr "2024-01-01T00:00:00.000Z" ]}))
  ∧ app next_always next_always exact_get unset zeros (GET "/" []) = home (GET "/" []).
Proof.
  split.
  - exact (proj2 (home_and_health_need_no_configuration next_always next_always exact_get
      unset zeros (GET "/health" []) (conj eq_refl eq_refl)) eq_refl eq_refl eq_refl).
  - exact (proj1 (proj1 (home_and_health_need_no_configuration next_always next_always
      exact_get unset zeros (GET "/" []) (conj eq_refl eq_refl)) eq_refl eq_refl)).
Defined.

Lemma plain_request_answered_witness :
  ∃ r,
    finish (app next_always next_always exact_get test_config zeros
              (GET "/callback" [("error", Some (JArr [JStr "a"; JStr "b"]))]))
      (Throw "unused") = Some r.
Proof.
  refine (plain_request_answered next_always next_always exact_get test_config zeros
    (GET "/callback" [("error", Some (JArr [JStr "a"; JStr "b"]))]) (Throw "unused")
    (conj eq_refl eq_refl) _).
  intros name v Hv. simpl in Hv.
  apply lookup_insert_Some in Hv as [[_ <-]|[_ Hv]]; [reflexivity|].
  by rewrite lookup_empty in Hv.
Defined.

Lemma client_secret_stays_out_of_answers_witness :
  finish (app next_always next_always exact_get test_config zeros
            (GET "/callback" [("code", Some (JStr "abc"))]))
    (Ok (JObj {[ "access_token" := JStr "A" ]}))
  = finish (app next_always next_always exact_get
              {| CLIENT_ID := Some "test_client_id";
                 CLIENT_SECRET := Some "another secret";
                 REDIRECT_URI := Some "http://localhost:3000/callback" |}
              zeros (GET "/callback" [("code", Some (JStr "abc"))]))
      (Ok (JObj {[ "access_token" := JStr "A" ]})).
Proof.
  exact (proj1 (client_secret_stays_out_of_answers next_always next_always exact_get
    test_config
    {| CLIENT_ID := Some "test_client_id";
       CLIENT_SECRET := Some "another secret";
       REDIRECT_URI := Some "http://localhost:3000/callback" |}
    zeros (GET "/callback" [("code", Some (JStr "abc"))])
    (Ok (JObj {[ "access_token" := JStr "A" ]})) eq_refl eq_refl eq_refl)).
Defined.

Lemma answer_statuses_witness :
  302 ∈ [200; 302; 400; 404; 500].
Proof.
  exact (proj1 (answer_statuses next_always next_always exact_get test_config zeros
    (GET "/login" []) (Throw "unused") _ (conj eq_refl eq_refl) eq_refl)).
Defined.

(** X17: [GET /callback] sends no answer exactly when its [error] parameter
    is truthy and has no text form, the one place where it can throw outside
    its [try] block; [GET /refresh_token] answers every request. *)
Theorem unanswered_iff (cfg : Config) (req : Request) (o : Outcome) :
  (finish (callback cfg req) o = None
   ↔ truthy_opt (query req !! "error") = true
     ∧ ∃ message, to_string_opt (query req !! "error") = Throw message)
  ∧ ∃ r, finish (refresh_token cfg req) o = Some r.
Proof.
  split; [|apply refresh_token_answers].
  unfold callback.
  destruct (truthy_opt (query req !! "error")).
  - destruct (to_string_opt (query req !! "error")) as [t|m]; simpl.
    + split; [done|]. by intros (_ & m & ?).
    + split; [intros _; eauto|done].
  - destruct (negb _); simpl; [split; [done|by intros [? _]]|].
    destruct (to_string_opt (query req !! "code")); simpl;
      (split; [done|by intros [? _]]).
Qed.
